(** * Blocks: text corpus readers and main-loop checkpoint extensions

    A shallow embedding of [blocks/datasets/one_billion_word.py]
    (classes [TextFile] and [OneBillionWord]) and of
    [blocks/extensions/saveload.py] (classes [SerializeMainLoop],
    [LoadTrainingState] and [SaveTrainingState]), together with the
    properties of these classes that the design document states.

    Python objects that are mutated in place (reader states, file
    objects, the main loop with its log, the file system) are threaded
    explicitly; a Python call that can raise returns a [result]. *)

From Stdlib Require Import ZArith Ascii String List Lia Bool.
From Stdlib Require Import DecimalString.
From Stdlib Require DecimalN DecimalPos.
From stdpp Require Import base option gmap strings list fin_maps.

Local Open Scope Z_scope.

(** ** Python values common to both files *)

Module Py.

(** The exception classes that the modelled code raises or meets.
    [ValueError] carries its message: a bare [raise ValueError] has the
    empty one, a file object that is used after [close()] raises
    [ValueError("I/O operation on closed file")]. *)
Inductive exn : Type :=
  | StopIteration
  | ValueError (msg : string)
  | KeyError (key : string)
  | IndexError
  | IOError (path : string)
  | Other (class_name : string).

Inductive result (A : Type) : Type :=
  | Ok (a : A)
  | Raise (e : exn).
Arguments Ok {A} a.
Arguments Raise {A} e.

#[global] Instance result_ret : MRet result := fun A a => Ok a.
#[global] Instance result_bind : MBind result := fun A B f m =>
  match m with
  | Ok a => f a
  | Raise e => Raise e
  end.

Definition closed_file_msg : string := "I/O operation on closed file".

(** [d[k]]: the subscript of a dict raises [KeyError] on a missing key. *)
Definition getitem (d : gmap string Z) (k : string) : result Z :=
  match d !! k with
  | Some v => Ok v
  | None => Raise (KeyError k)
  end.

(** [k in d] *)
Definition contains (d : gmap string Z) (k : string) : bool :=
  bool_decide (is_Some (d !! k)).

(** Truth value of an optional string: [None] and [''] are false. *)
Definition truthy (s : option string) : bool :=
  match s with
  | None => false
  | Some EmptyString => false
  | Some (String _ _) => true
  end.

(** *** Strings *)

Definition newline : ascii := "010"%char.

(** White space as [str.split()] sees it, on the 7-bit range: tab, line
    feed, vertical tab, form feed, carriage return, the four separators
    28..31 and the blank. *)
Definition is_space (c : ascii) : bool :=
  let n := N_of_ascii c in
  ((9 <=? n) && (n <=? 13) || (28 <=? n) && (n <=? 32))%N.

(** [s.split()]: the maximal runs of characters that are not white
    space, in order; [cur] is the run being read, reversed. *)
Fixpoint split_go (cur : list ascii) (s : string) : list string :=
  match s with
  | EmptyString =>
      match cur with
      | [] => []
      | _ => [string_of_list_ascii (rev cur)]
      end
  | String c s' =>
      if is_space c then
        match cur with
        | [] => split_go [] s'
        | _ => string_of_list_ascii (rev cur) :: split_go [] s'
        end
      else split_go (c :: cur) s'
  end.

Definition split (s : string) : list string := split_go [] s.

(** [str.lower] on the 7-bit range. *)
Definition lower_char (c : ascii) : ascii :=
  let n := N_of_ascii c in
  if ((65 <=? n) && (n <=? 90))%N then ascii_of_N (n + 32) else c.

Fixpoint lower (s : string) : string :=
  match s with
  | EmptyString => EmptyString
  | String c s' => String (lower_char c) (lower s')
  end.

(** *** Text files

    The file system maps a path to the text of the file as the text
    layer delivers it.  A file object holds what is still unread and
    whether it has been closed. *)

Record file : Type := File { rest : string; closed : bool }.

Definition open (fs : gmap string string) (path : string) : result file :=
  match fs !! path with
  | Some text => Ok (File text false)
  | None => Raise (IOError path)
  end.

(** The next line of a text, with its line feed, and what follows it;
    the empty string at the end of the text. *)
Fixpoint next_line (s : string) : string * string :=
  match s with
  | EmptyString => (EmptyString, EmptyString)
  | String c s' =>
      if Ascii.eqb c newline then (String c EmptyString, s')
      else let '(l, r) := next_line s' in (String c l, r)
  end.

(** [f.readline()] *)
Definition readline (f : file) : result (string * file) :=
  if closed f then Raise (ValueError closed_file_msg)
  else let '(l, r) := next_line (rest f) in Ok (l, File r false).

(** [f.close()] *)
Definition close (f : file) : file := File (rest f) true.

(** All the lines that successive [readline] calls deliver. *)
Fixpoint lines (s : string) : list string :=
  match s with
  | EmptyString => []
  | String c s' =>
      if Ascii.eqb c newline then String c EmptyString :: lines s'
      else match lines s' with
           | [] => [String c EmptyString]
           | l :: ls => String c l :: ls
           end
  end.

End Py.

Import Py.

(** ** [class TextFile(Dataset)] *)

Module TextFile.

Record t : Type := Build {
  files : list string;
  dictionary : gmap string Z;
  bos_token : option string;
  eos_token : option string;
  unk_token : string;
  level : string;
  preprocess : option (string -> string)
}.

(** [TextFile.__init__] *)
Definition init (files : list string) (dictionary : gmap string Z)
    (bos_token eos_token : option string) (unk_token : string)
    (level : string) (preprocess : option (string -> string)) : result t :=
  if match bos_token with
     | Some b => negb (contains dictionary b)
     | None => false
     end
  then Raise (ValueError "")
  else if match eos_token with
          | Some e => negb (contains dictionary e)
          | None => false
          end
  then Raise (ValueError "")
  else if negb (contains dictionary unk_token)
  then Raise (ValueError "")
  else Ok (Build files dictionary bos_token eos_token unk_token level
             preprocess).

(** The defaults of the keyword arguments. *)
Definition default_bos : option string := Some "<S>"%string.
Definition default_eos : option string := Some "</S>"%string.
Definition default_unk : string := "<UNK>".
Definition default_level : string := "word".

(** The object that [open] returns: [state.current_index] and
    [state.file]. *)
Record state : Type := State { current_index : nat; file : Py.file }.

(** [TextFile._open_file]: [open(self.files[partition_index])] *)
Definition _open_file (self : t) (fs : gmap string string)
    (partition_index : nat) : result Py.file :=
  match files self !! partition_index with
  | Some path => Py.open fs path
  | None => Raise IndexError
  end.

(** [TextFile.open] *)
Definition open (self : t) (fs : gmap string string) : result state :=
  f ← _open_file self fs 0%nat; Ok (State 0 f).

(** The [while True] loop of [get_data]: the sentence it leaves with, or
    the exception, and the state as the loop left it.  Each turn that
    does not leave the loop moves to the next file, so the turns are
    counted by [fuel]; [None] when the count runs out. *)
Fixpoint read_sentence (fuel : nat) (self : t) (fs : gmap string string)
    (st : state) : option (result string * state) :=
  match fuel with
  | O => None
  | S fuel' =>
      match readline (file st) with
      | Raise e => Some (Raise e, st)
      | Ok (sentence, f) =>
          match sentence with
          | EmptyString =>
              let st1 := State (current_index st) (close f) in
              if Z.of_nat (current_index st)
                   =? Z.of_nat (length (files self)) - 1
              then Some (Raise StopIteration, st1)
              else
                let i := S (current_index st) in
                match _open_file self fs i with
                | Raise e => Some (Raise e, State i (close f))
                | Ok f' => read_sentence fuel' self fs (State i f')
                end
          | String _ _ => Some (Ok sentence, State (current_index st) f)
          end
      end
  end.

(** Lines 101 to 107: the sentence, preprocessed, as numbers. *)
Definition numberize (self : t) (sentence : string) : result (list Z) :=
  let sentence :=
    match preprocess self with
    | Some p => p sentence
    | None => sentence
    end in
  b ← (if truthy (bos_token self)
       then v ← getitem (dictionary self) (default "" (bos_token self));
            Ok [v]
       else Ok []);
  ws ← mapM (fun word =>
               u ← getitem (dictionary self) (unk_token self);
               Ok (default u (dictionary self !! word)))
            (split sentence);
  e ← (if truthy (eos_token self)
       then v ← getitem (dictionary self) (default "" (eos_token self));
            Ok [v]
       else Ok []);
  Ok (b ++ ws ++ e).

(** [TextFile.get_data]; the one-element tuple [(data,)] is given as
    [data]. *)
Definition get_data (self : t) (fs : gmap string string) (st : state)
    (request : option Z) : option (result (list Z) * state) :=
  match request with
  | Some _ => Some (Raise (ValueError ""), st)
  | None =>
      match read_sentence (S (length (files self))) self fs st with
      | None => None
      | Some (Raise e, st') => Some (Raise e, st')
      | Some (Ok sentence, st') => Some (numberize self sentence, st')
      end
  end.

(** The outcomes of [n] successive [get_data(state, None)] calls on one
    state object. *)
Fixpoint reads (n : nat) (self : t) (fs : gmap string string) (st : state)
    : list (option (result (list Z))) :=
  match n with
  | O => []
  | S n' =>
      match get_data self fs st None with
      | None => [None]
      | Some (r, st') => Some r :: reads n' self fs st'
      end
  end.

(** What the properties below speak of. *)

(** The lines of the file at [path]. *)
Definition lines_at (fs : gmap string string) (path : string) : list string :=
  lines (default EmptyString (fs !! path)).

(** The lines of all the files, in the order of [files]. *)
Definition corpus (self : t) (fs : gmap string string) : list string :=
  concat (map (lines_at fs) (files self)).

(** The lines that a state has not delivered yet: the unread ones of its
    file, then those of the files after it. *)
Definition pending (self : t) (fs : gmap string string) (st : state)
    : list string :=
  lines (rest (file st))
  ++ concat (map (lines_at fs) (drop (S (current_index st)) (files self))).

(** The numbers of a sentence when every required token has one. *)
Definition marker (d : gmap string Z) (token : option string) : list Z :=
  match token with
  | Some (String c s) => [d !!! String c s]
  | _ => []
  end.

Definition tokenize (self : t) (sentence : string) : list Z :=
  let sentence :=
    match preprocess self with
    | Some p => p sentence
    | None => sentence
    end in
  marker (dictionary self) (bos_token self)
  ++ map (fun word => default (dictionary self !!! unk_token self)
                        (dictionary self !! word))
       (split sentence)
  ++ marker (dictionary self) (eos_token self).

(** A state as [open] and [get_data] leave it while lines remain. *)
Definition reading (self : t) (st : state) : Prop :=
  closed (file st) = false /\ (current_index st < length (files self))%nat.

(** What [__init__] has checked of a reader that it returned. *)
Definition configured (self : t) : Prop :=
  is_Some (dictionary self !! unk_token self)
  /\ (forall b, bos_token self = Some b -> is_Some (dictionary self !! b))
  /\ (forall e, eos_token self = Some e -> is_Some (dictionary self !! e)).

End TextFile.

(** The docstring example of [TextFile]. *)
Module DocExample.

Definition vocabulary : gmap string Z :=
  <["<UNK>"%string := 0]> (<["</S>"%string := 1]> (<["this"%string := 2]>
    (<["a"%string := 3]> (<["one"%string := 4]> ∅)))).

Definition sentences_txt : string :=
  "This is a sentence" ++ String newline "This another one".

Definition fs : gmap string string := {[ "sentences.txt"%string := sentences_txt ]}.

Definition reader : TextFile.t :=
  TextFile.Build ["sentences.txt"%string] vocabulary None TextFile.default_eos
    TextFile.default_unk TextFile.default_level (Some lower).

Definition opened : TextFile.state :=
  TextFile.State 0 (File sentences_txt false).

(** The state of the reader once both sentences have been read. *)
Definition at_end : TextFile.state := TextFile.State 0 (File EmptyString false).

(** The state that the call which raised [StopIteration] left. *)
Definition exhausted : TextFile.state :=
  TextFile.State 0 (File EmptyString true).

End DocExample.

(** Three files, the one in the middle empty, the last one without a
    final line feed. *)
Module ThreeFiles.

Definition vocabulary : gmap string Z :=
  <["<UNK>"%string := 0]> (<["<S>"%string := 1]> (<["</S>"%string := 2]>
    (<["hello"%string := 3]> ∅))).

Definition fs : gmap string string :=
  <["a.txt"%string := ("hello world" ++ String newline "")%string]>
    (<["empty.txt"%string := ""%string]>
       (<["b.txt"%string := "bye"%string]> ∅)).

Definition names : list string := ["a.txt"; "empty.txt"; "b.txt"]%string.

Definition reader : TextFile.t :=
  TextFile.Build names vocabulary TextFile.default_bos TextFile.default_eos
    TextFile.default_unk TextFile.default_level None.

Definition opened : TextFile.state :=
  TextFile.State 0 (File ("hello world" ++ String newline "") false).

End ThreeFiles.

(** A reader with [level='character'] over single letters. *)
Module Letters.

Definition vocabulary : gmap string Z :=
  <["<UNK>"%string := 0]> (<["a"%string := 1]> (<["b"%string := 2]> ∅)).

Definition fs : gmap string string :=
  {[ "w.txt"%string := ("ab ba" ++ String newline "")%string ]}.

Definition reader : TextFile.t :=
  TextFile.Build ["w.txt"%string] vocabulary None None TextFile.default_unk
    "character" None.

Definition opened : TextFile.state :=
  TextFile.State 0 (File ("ab ba" ++ String newline "") false).

End Letters.

(** ** [class OneBillionWord(Dataset)] *)

Module OneBillionWord.

(** [os.path.join] of [posixpath]. *)
Definition ends_with_sep (s : string) : bool :=
  match rev (list_ascii_of_string s) with
  | c :: _ => Ascii.eqb c "/"
  | [] => false
  end.

Definition starts_with_sep (s : string) : bool :=
  match s with
  | String c _ => Ascii.eqb c "/"
  | EmptyString => false
  end.

Definition join2 (path b : string) : string :=
  if starts_with_sep b then b
  else if (String.length path =? 0)%nat || ends_with_sep path
       then (path ++ b)%string
       else (path ++ "/" ++ b)%string.

Definition path_join (a : string) (p : list string) : string :=
  fold_left join2 p a.

(** ['{:05d}'.format(n)]: the decimal digits, filled with zeros on the
    left up to five characters, a minus sign counting as one of them. *)
Definition digits (n : N) : string := NilZero.string_of_uint (N.to_uint n).

Definition zfill (width : nat) (s : string) : string :=
  (string_of_list_ascii (repeat "0"%char (width - String.length s)) ++ s)%string.

Definition format_05d (n : Z) : string :=
  if n <? 0 then ("-" ++ zfill 4 (digits (Z.to_N (- n))))%string
  else zfill 5 (digits (Z.to_N n)).

Record t : Type := Build {
  which_set : string;
  which_partitions : list Z;
  dictionary : gmap string Z;
  preprocess : option (string -> string)
}.

(** [OneBillionWord.__init__] *)
Definition init (which_set : string) (which_partitions : list Z)
    (dictionary : gmap string Z) (preprocess : option (string -> string))
    : result t :=
  Ok (Build which_set which_partitions dictionary preprocess).

Record state : Type := State { current_index : nat; file : Py.file }.

Section Reader.

(** [blocks.config.data_path] and the file system. *)
Variable data_path : string.
Variable fs : gmap string string.

(** The path that [_open_file] builds for a partition number. *)
Definition partition_path (self : t) (partition : Z) : string :=
  if String.eqb (which_set self) "training"
  then path_join data_path
         ["1-billion-word"; "training-monolingual.tokenized.shuffled";
          "news.en-" ++ format_05d partition ++ "-of-00100"]%string
  else path_join data_path
         ["1-billion-word"; "heldout-monolingual.tokenized.shuffled";
          "news.en.heldout-" ++ format_05d partition ++ "-of-00050"]%string.

(** [OneBillionWord._open_file] *)
Definition _open_file (self : t) (partition_index : nat)
    : result Py.file :=
  match which_partitions self !! partition_index with
  | Some partition => Py.open fs (partition_path self partition)
  | None => Raise IndexError
  end.

(** [OneBillionWord.open] *)
Definition open (self : t) : result state :=
  f ← _open_file self 0%nat; Ok (State 0 f).

(** Lines 191 to 193: one sentence as numbers. *)
Definition numberize (self : t) (sentence : string) : result (list Z) :=
  b ← getitem (dictionary self) "<S>";
  ws ← mapM (fun word =>
               u ← getitem (dictionary self) "<UNK>";
               Ok (default u (dictionary self !! word)))
            (split sentence);
  e ← getitem (dictionary self) "</S>";
  Ok ([b] ++ ws ++ [e]).

(** The [while len(data) < request] loop of [get_data], its turns
    counted by [fuel]. *)
Fixpoint collect (fuel : nat) (self : t) (st : state)
    (data : list (list Z)) (request : Z)
    : option (result (list (list Z)) * state) :=
  match fuel with
  | O => None
  | S fuel' =>
      if Z.of_nat (length data) <? request then
        match readline (file st) with
        | Raise e => Some (Raise e, st)
        | Ok (sentence, f) =>
            match sentence with
            | EmptyString =>
                let st1 := State (current_index st) (close f) in
                if Z.of_nat (current_index st)
                     =? Z.of_nat (length (which_partitions self)) - 1
                then
                  match data with
                  | [] => Some (Raise StopIteration, st1)
                  | _ :: _ => Some (Ok data, st1)
                  end
                else
                  let i := S (current_index st) in
                  match _open_file self i with
                  | Raise e => Some (Raise e, State i (close f))
                  | Ok f' => collect fuel' self (State i f') data request
                  end
            | String _ _ =>
                let st1 := State (current_index st) f in
                match numberize self sentence with
                | Raise e => Some (Raise e, st1)
                | Ok s => collect fuel' self st1 (data ++ [s]) request
                end
            end
        end
      else Some (Ok data, st)
  end.

(** [OneBillionWord.get_data]; [(data,)] is given as [data]. *)
Definition get_data (self : t) (st : state) (request : Z)
    : option (result (list (list Z)) * state) :=
  collect (S (Z.to_nat request + length (which_partitions self)))
    self st [] request.

(** The outcomes of [n] successive [get_data(state, request)] calls on one
    state object. *)
Fixpoint batches (n : nat) (self : t) (st : state) (request : Z)
    : list (option (result (list (list Z)))) :=
  match n with
  | O => []
  | S n' =>
      match get_data self st request with
      | None => [None]
      | Some (r, st') => Some r :: batches n' self st' request
      end
  end.

(** What the properties below speak of. *)

(** The lines of the file of a partition. *)
Definition lines_at (self : t) (partition : Z) : list string :=
  lines (default EmptyString (fs !! partition_path self partition)).

(** The lines that a state has not delivered yet. *)
Definition pending (self : t) (st : state) : list string :=
  lines (rest (file st))
  ++ concat (map (lines_at self)
               (drop (S (current_index st)) (which_partitions self))).

(** A state as [open] and [get_data] leave it while lines remain. *)
Definition reading (self : t) (st : state) : Prop :=
  closed (file st) = false
  /\ (current_index st < length (which_partitions self))%nat.

End Reader.

(** The numbers of a raw line: its words as [split()] gives them, each
    with its number or that of ['<UNK>'], between the numbers of ['<S>']
    and ['</S>']. *)
Definition raw_sequence (d : gmap string Z) (line : string) : list Z :=
  [d !!! "<S>"%string]
  ++ map (fun word => default (d !!! "<UNK>"%string) (d !! word)) (split line)
  ++ [d !!! "</S>"%string].

(** The lines of all the selected partitions, in their order. *)
Definition corpus (data_path : string) (fs : gmap string string) (self : t)
    : list string :=
  concat (map (lines_at data_path fs self) (which_partitions self)).

(** The dictionary holds the three tokens that the docstring expects. *)
Definition complete (d : gmap string Z) : Prop :=
  is_Some (d !! "<S>"%string) /\ is_Some (d !! "</S>"%string)
  /\ is_Some (d !! "<UNK>"%string).

End OneBillionWord.

(** ** [blocks/extensions/saveload.py] *)

Module SaveLoad.

Definition LOADED_FROM : string := "loaded_from".
Definition SAVING_DONE_TO : string := "saving_done_to".

(** What the extensions store in a cell of the log: a path or [None]. *)
Inductive cell : Type :=
  | CNone
  | CStr (s : string).

Section Extensions.

(** Everything of the main loop but the current row of its log. *)
Context {Process : Type}.

(** [self.main_loop]: [log.current_row] and the rest. *)
Record main_loop : Type := MainLoop {
  current_row : gmap string cell;
  process : Process
}.

(** What the extensions act on: the main loop they are attached to, the
    files on the disk, and the records handed to [logger]. *)
Record world : Type := World {
  loop : main_loop;
  disk : gmap string (list Byte.byte);
  logged : list (string * string)
}.

(** A statement: it ends normally or raises, and leaves a world. *)
Definition M (A : Type) : Type := world -> result A * world.

Definition ret {A} (a : A) : M A := fun w => (Ok a, w).

Definition bind {A B} (m : M A) (k : A -> M B) : M B := fun w =>
  match m w with
  | (Ok a, w') => k a w'
  | (Raise e, w') => (Raise e, w')
  end.

(** [try: body / except: handler], the bare [except] that catches every
    exception. *)
Definition try_except {A} (body : M A) (handler : exn -> M A) : M A :=
  fun w =>
    match body w with
    | (Ok a, w') => (Ok a, w')
    | (Raise e, w') => handler e w'
    end.

(** [self.main_loop.log.current_row[key] = value] *)
Definition set_row (key : string) (value : cell) : M unit := fun w =>
  (Ok tt,
   World (MainLoop (<[key := value]> (current_row (loop w)))
            (process (loop w)))
     (disk w) (logged w)).

(** [logger.info(msg)], [logger.error(msg)] *)
Definition log_record (levelname msg : string) : M unit := fun w =>
  (Ok tt, World (loop w) (disk w) (logged w ++ [(levelname, msg)])).

(** The collaborators that are not part of these files.

    [open_wb_error disk path] is the exception of [open(path, "wb")], if
    it raises one; when it raises none, the file exists and is empty.
    [dill_dump loop] gives the bytes that [dill.dump] wrote to its file
    before it returned or raised, and the exception if it raised.
    [format_exc] is [traceback.format_exc()] in a handler. *)
Variable open_wb_error : gmap string (list Byte.byte) -> string -> option exn.
Variable dill_dump : main_loop -> list Byte.byte * option exn.
Variable format_exc : exn -> string.

(** [blocks.serialization.MainLoopStateManager]: its [folder], and what
    [save] and [load_to] do to the disk and to the main loop they are
    given, with the exception, if they raise one. *)
Record manager : Type := Manager {
  folder : string;
  save : main_loop -> gmap string (list Byte.byte)
         -> gmap string (list Byte.byte) * option exn;
  load_to : gmap string (list Byte.byte) -> main_loop
            -> main_loop * option exn
}.

(** [with open(path, "wb") as destination: dill.dump(self.main_loop,
    destination, fmode=dill.CONTENTS_FMODE)] *)
Definition open_and_dump (path : string) : M unit := fun w =>
  match open_wb_error (disk w) path with
  | Some e => (Raise e, w)
  | None =>
      let truncated := <[path := []]> (disk w) in
      let '(written, raised) := dill_dump (loop w) in
      let w' := World (loop w) (<[path := written]> truncated) (logged w) in
      match raised with
      | Some e => (Raise e, w')
      | None => (Ok tt, w')
      end
  end.

(** [SerializeMainLoop.do], for the extension with [self.path = path]. *)
Definition SerializeMainLoop_do (path : string) (callback_name : string)
    : M unit :=
  try_except
    (bind (set_row SAVING_DONE_TO (CStr path)) (fun _ => open_and_dump path))
    (fun _ => set_row SAVING_DONE_TO CNone).

(** [self.manager.load_to(self.main_loop)] *)
Definition manager_load_to (m : manager) : M unit := fun w =>
  let '(l, raised) := load_to m (disk w) (loop w) in
  let w' := World l (disk w) (logged w) in
  match raised with
  | Some e => (Raise e, w')
  | None => (Ok tt, w')
  end.

(** [self.manager.save(self.main_loop)] *)
Definition manager_save (m : manager) : M unit := fun w =>
  let '(d, raised) := save m (loop w) (disk w) in
  let w' := World (loop w) d (logged w) in
  match raised with
  | Some e => (Raise e, w')
  | None => (Ok tt, w')
  end.

(** [LoadTrainingState.before_training] *)
Definition LoadTrainingState_before_training (m : manager) : M unit :=
  bind (log_record "INFO"
          ("Loading the state from " ++ folder m ++ " into the main loop"))
    (fun _ =>
       try_except
         (bind (manager_load_to m)
               (fun _ => set_row LOADED_FROM (CStr (folder m))))
         (fun e =>
            log_record "ERROR"
              ("Failed to load the state:" ++ String newline (format_exc e)))).

(** [SaveTrainingState.do] *)
Definition SaveTrainingState_do (m : manager) (callback_name : string)
    : M unit :=
  try_except
    (bind (set_row SAVING_DONE_TO (CStr (folder m)))
          (fun _ => manager_save m))
    (fun _ => set_row SAVING_DONE_TO CNone).

End Extensions.

Arguments main_loop : clear implicits.
Arguments world : clear implicits.
Arguments manager : clear implicits.

End SaveLoad.


(** A main loop with an earlier snapshot on the disk, and a [dill.dump]
    that raises before it has written anything. *)
Module FailedDump.

Definition path : string := "main_loop.pkl".

Definition earlier : list Byte.byte := [Byte.x80; Byte.x02; Byte.x2e].

Definition before : SaveLoad.world unit :=
  SaveLoad.World (SaveLoad.MainLoop ∅ tt) {[ path := earlier ]} [].

Definition open_wb_error (disk : gmap string (list Byte.byte))
    (path : string) : option exn := None.

Definition dill_dump (loop : SaveLoad.main_loop unit)
    : list Byte.byte * option exn :=
  ([], Some (Other "PicklingError")).

End FailedDump.

(** One training partition that holds a single sentence. *)
Module OnePartition.

Definition data_path : string := "/data".

Definition vocabulary : gmap string Z :=
  <["<S>"%string := 0]> (<["</S>"%string := 1]> (<["<UNK>"%string := 2]>
    (<["a"%string := 3]> ∅))).

Definition path : string :=
  "/data/1-billion-word/training-monolingual.tokenized.shuffled/news.en-00001-of-00100".

Definition text : string := "a b" ++ String newline "".

Definition fs : gmap string string := {[ path := text ]}.

Definition reader : OneBillionWord.t :=
  OneBillionWord.Build "training" [1] vocabulary None.

Definition opened : OneBillionWord.state :=
  OneBillionWord.State 0 (File text false).

(** The state after the call that returned the partial batch. *)
Definition drained : OneBillionWord.state :=
  OneBillionWord.State 0 (File EmptyString true).

End OnePartition.

(** ** Further notions for the properties of the two files *)

(** The [TextFile] over the files of the selected partitions, with the
    default tokens and no preprocessing, and the state objects of the
    two classes seen as one another. *)
Definition as_text_file (data_path : string) (self : OneBillionWord.t)
    : TextFile.t :=
  TextFile.Build
    (map (OneBillionWord.partition_path data_path self)
       (OneBillionWord.which_partitions self))
    (OneBillionWord.dictionary self)
    TextFile.default_bos TextFile.default_eos TextFile.default_unk
    TextFile.default_level None.

Definition as_text_state (st : OneBillionWord.state) : TextFile.state :=
  TextFile.State (OneBillionWord.current_index st) (OneBillionWord.file st).

Definition of_text_state (st : TextFile.state) : OneBillionWord.state :=
  OneBillionWord.State (TextFile.current_index st) (TextFile.file st).

(** The batch of one sentence for the outcome of a single read. *)
Definition as_batch (r : result (list Z)) : result (list (list Z)) :=
  match r with
  | Ok s => Ok [s]
  | Raise e => Raise e
  end.

(** [int(s)] on a decimal numeral with an optional minus sign. *)
Definition int_of_numeral (s : string) : option Z :=
  option_map Z.of_int (NilZero.int_of_string s).

(** All the characters of a string are white space. *)
Fixpoint blank (s : string) : bool :=
  match s with
  | EmptyString => true
  | String c s' => is_space c && blank s'
  end.

(** The constructors of the two save extensions. *)
Module SaveLoadInit.

(** A keyword argument for [SimpleExtension.__init__]: a flag such as
    [after_training=True] or a count such as [every_n_batches=10]. *)
Inductive kwvalue : Type :=
  | KBool (b : bool)
  | KInt (n : Z).

(** [kwargs.setdefault(key, value)] *)
Definition setdefault (kwargs : gmap string kwvalue) (key : string)
    (value : kwvalue) : gmap string kwvalue :=
  match kwargs !! key with
  | Some _ => kwargs
  | None => <[key := value]> kwargs
  end.

(** What [SerializeMainLoop.__init__] hands to [SimpleExtension.__init__]
    and what it stores in [self.path]. *)
Record serialize_main_loop : Type := SerializeMainLoop {
  super_kwargs : gmap string kwvalue;
  path : string
}.

Definition SerializeMainLoop_init (path : string)
    (kwargs : gmap string kwvalue) : serialize_main_loop :=
  SerializeMainLoop (setdefault kwargs "after_training" (KBool true)) path.

(** [SaveTrainingState.__init__], with the constructor of
    [MainLoopStateManager] for a parameter. *)
Record save_training_state (Manager : Type) : Type := SaveTrainingState {
  state_super_kwargs : gmap string kwvalue;
  state_manager : Manager
}.
Arguments SaveTrainingState {Manager} _ _.
Arguments state_super_kwargs {Manager} _.
Arguments state_manager {Manager} _.

Definition SaveTrainingState_init {Manager : Type}
    (MainLoopStateManager : string -> Manager) (state_path : string)
    (kwargs : gmap string kwvalue) : save_training_state Manager :=
  SaveTrainingState (setdefault kwargs "after_training" (KBool true))
    (MainLoopStateManager state_path).

End SaveLoadInit.

(** A file that starts with an empty line. *)
Module BlankLine.

Definition text : string := String newline ("hello" ++ String newline "").

Definition fs : gmap string string := {[ "s.txt"%string := text ]}.

Definition reader : TextFile.t :=
  TextFile.Build ["s.txt"%string] ThreeFiles.vocabulary TextFile.default_bos
    TextFile.default_eos TextFile.default_unk TextFile.default_level None.

Definition opened : TextFile.state := TextFile.State 0 (File text false).

End BlankLine.

(** Two held-out partitions, three sentences in the first and one in the
    second. *)
Module TwoPartitions.

Definition data_path : string := "/data".

Definition path0 : string :=
  "/data/1-billion-word/heldout-monolingual.tokenized.shuffled/news.en.heldout-00000-of-00050".

Definition path1 : string :=
  "/data/1-billion-word/heldout-monolingual.tokenized.shuffled/news.en.heldout-00001-of-00050".

Definition text0 : string :=
  "a b" ++ String newline ("a" ++ String newline ("b" ++ String newline "")).

Definition text1 : string := "b a" ++ String newline "".

Definition fs : gmap string string := <[path0 := text0]> {[ path1 := text1 ]}.

Definition reader : OneBillionWord.t :=
  OneBillionWord.Build "heldout" [0; 1] OnePartition.vocabulary None.

Definition opened : OneBillionWord.state :=
  OneBillionWord.State 0 (File text0 false).

End TwoPartitions.

(** Each of the numbers [n], [n + 1], ..., [n + count - 1] has at most
    [width] decimal digits. *)
Fixpoint digits_within (width count : nat) (n : N) : bool :=
  match count with
  | O => true
  | S count' =>
      (String.length (OneBillionWord.digits n) <=? width)%nat
      && digits_within width count' (N.succ n)
  end.
(** * Properties *)

(** ** Lines of a text *)

Section Lines.

Lemma lines_nil (s : string) : lines s = [] -> s = EmptyString.
Proof.
  destruct s as [|c s]; [done|]. simpl.
  destruct (Ascii.eqb c newline); [done|].
  by destruct (lines s).
Qed.

(** [readline] on unread text takes the first of its lines. *)
Lemma next_line_lines (c : ascii) (s : string) :
  exists l r, next_line (String c s) = (String c l, r)
              /\ lines (String c s) = String c l :: lines r.
Proof.
  revert c. induction s as [|d s IH]; intros c; simpl.
  - destruct (Ascii.eqb c newline); by eexists _, _.
  - destruct (Ascii.eqb c newline) eqn:Hc; [by eexists _, _|].
    destruct (IH d) as (l & r & Hn & Hl). simpl in Hn, Hl.
    rewrite Hn, Hl. by eexists _, _.
Qed.

Lemma Forall_lines_nonempty (s : string) :
  Forall (fun l => l <> EmptyString) (lines s).
Proof.
  induction s as [|c s IH]; simpl; [constructor|].
  destruct (Ascii.eqb c newline).
  - by constructor.
  - destruct (lines s); constructor; try done.
    by inversion IH.
Qed.

End Lines.

(** ** [TextFile] *)

Section TextFileFacts.

Variable self : TextFile.t.
Variable fs : gmap string string.

(** Every file of the reader is on the disk. *)
Hypothesis files_exist :
  Forall (fun p => is_Some (fs !! p)) (TextFile.files self).

Lemma TextFile_open_file_ok (i : nat) :
  (i < length (TextFile.files self))%nat ->
  exists text,
    TextFile._open_file self fs i = Ok (File text false)
    /\ lines text ++ concat (map (TextFile.lines_at fs)
                               (drop (S i) (TextFile.files self)))
       = concat (map (TextFile.lines_at fs) (drop i (TextFile.files self))).
Proof.
  intros Hi. destruct (lookup_lt_is_Some_2 _ _ Hi) as [p Hp].
  rewrite Forall_lookup in files_exist.
  destruct (files_exist _ _ Hp) as [text Ht].
  exists text. split.
  - unfold TextFile._open_file, Py.open. by rewrite Hp, Ht.
  - rewrite (drop_S _ _ _ Hp). simpl. unfold TextFile.lines_at at 2.
    by rewrite Ht.
Qed.

(** The loop of [get_data] from a reading state: it leaves with the
    first pending line, or, when none is pending, with [StopIteration]
    and a closed file. *)
Lemma TextFile_read_sentence_spec (fuel : nat) (st : TextFile.state) :
  TextFile.reading self st ->
  (length (TextFile.files self) - TextFile.current_index st <= fuel)%nat ->
  match TextFile.pending self fs st with
  | [] => exists st',
      TextFile.read_sentence fuel self fs st = Some (Raise StopIteration, st')
      /\ closed (TextFile.file st') = true
  | l :: ls => exists st',
      TextFile.read_sentence fuel self fs st = Some (Ok l, st')
      /\ TextFile.reading self st'
      /\ TextFile.pending self fs st' = ls
  end.
Proof.
  revert st. induction fuel as [|fuel IH]; intros [i [text cl]] [Hcl Hi] Hfuel;
    simpl in *; [lia|]. subst cl.
  unfold TextFile.pending, readline. simpl.
  destruct text as [|c text].
  - (* the file is exhausted *)
    simpl. destruct (Z.eqb_spec (Z.of_nat i)
                       (Z.of_nat (length (TextFile.files self)) - 1)) as [Hlast|Hlast].
    + rewrite drop_ge by lia. simpl. by eexists.
    + destruct (TextFile_open_file_ok (S i)) as (text' & Ho & Hl); [lia|].
      rewrite Ho. rewrite <- Hl.
      specialize (IH (TextFile.State (S i) (File text' false))).
      unfold TextFile.pending in IH. simpl in IH.
      apply IH; [split; simpl; [done|lia] | simpl; lia].
  - destruct (next_line_lines c text) as (l & r & Hn & Hl).
    rewrite Hn, Hl. simpl. eexists. split; [done|]. by split.
Qed.

End TextFileFacts.

Section TextFileNumbers.

Lemma contains_true (d : gmap string Z) (k : string) :
  contains d k = true <-> is_Some (d !! k).
Proof. unfold contains. by rewrite bool_decide_eq_true. Qed.

Lemma contains_false (d : gmap string Z) (k : string) :
  contains d k = false <-> d !! k = None.
Proof.
  unfold contains. rewrite bool_decide_eq_false.
  by rewrite <- eq_None_not_Some.
Qed.

Lemma getitem_total (d : gmap string Z) (k : string) :
  is_Some (d !! k) -> getitem d k = Ok (d !!! k).
Proof.
  intros [v Hv]. unfold getitem. rewrite Hv.
  by rewrite (lookup_total_correct _ _ _ Hv).
Qed.

Lemma mapM_result_cons {A B} (f : A -> result B) (x : A) (l : list A) :
  mapM f (x :: l) = (y ← f x; k ← mapM f l; Ok (y :: k)).
Proof. reflexivity. Qed.

(** The list comprehension over the words of a sentence. *)
Lemma words_ok (d : gmap string Z) (unk : string) (ws : list string) :
  is_Some (d !! unk) ->
  mapM (fun word => u ← getitem d unk; Ok (default u (d !! word))) ws
  = Ok (map (fun word => default (d !!! unk) (d !! word)) ws).
Proof.
  intros Hu. induction ws as [|w ws IH]; [done|].
  rewrite mapM_result_cons, IH, (getitem_total _ _ Hu). reflexivity.
Qed.

Lemma words_raise (d : gmap string Z) (unk : string) (ws : list string)
    (e : exn) :
  mapM (fun word => u ← getitem d unk; Ok (default u (d !! word))) ws
  = Raise e -> e = KeyError unk.
Proof.
  destruct (d !! unk) as [u|] eqn:Hu.
  - rewrite words_ok by (by eexists). done.
  - destruct ws as [|w ws]; [done|].
    rewrite mapM_result_cons. unfold getitem. rewrite Hu.
    by intros [= <-].
Qed.

Lemma bind_ok {A B} (m : result A) (f : A -> result B) (b : B) :
  m ≫= f = Ok b -> exists a, m = Ok a /\ f a = Ok b.
Proof. destruct m as [a|e]; [by exists a | done]. Qed.

Lemma getitem_ok (d : gmap string Z) (k : string) (v : Z) :
  getitem d k = Ok v -> v = d !!! k.
Proof.
  unfold getitem. destruct (d !! k) as [v'|] eqn:Hk; [|done].
  intros [= <-]. by rewrite (lookup_total_correct _ _ _ Hk).
Qed.

Lemma words_ok_inv (d : gmap string Z) (unk : string) (ws : list string)
    (r : list Z) :
  mapM (fun word => u ← getitem d unk; Ok (default u (d !! word))) ws = Ok r ->
  r = map (fun word => default (d !!! unk) (d !! word)) ws.
Proof.
  destruct (d !! unk) as [u|] eqn:Hu.
  - rewrite words_ok by (by eexists). by intros [= <-].
  - destruct ws as [|w ws]; [by intros [= <-]|].
    rewrite mapM_result_cons. unfold getitem. by rewrite Hu.
Qed.

Lemma marker_ok (d : gmap string Z) (token : option string) :
  (forall s, token = Some s -> is_Some (d !! s)) ->
  (if truthy token then v ← getitem d (default EmptyString token); Ok [v]
   else Ok [])
  = Ok (TextFile.marker d token).
Proof.
  intros H. destruct token as [[|c s]|]; simpl; try done.
  by rewrite (getitem_total _ _ (H _ eq_refl)).
Qed.

Lemma TextFile_init_configured files dictionary bos eos unk level preprocess
    self :
  TextFile.init files dictionary bos eos unk level preprocess = Ok self ->
  TextFile.configured self
  /\ self = TextFile.Build files dictionary bos eos unk level preprocess.
Proof.
  unfold TextFile.init, TextFile.configured.
  destruct bos as [b|], eos as [e|]; simpl;
    repeat match goal with
      | |- context [negb (contains ?d ?k)] =>
          let H := fresh "H" in
          destruct (contains d k) eqn:H; simpl; [apply contains_true in H|]
      end; try done;
    intros [= <-]; simpl; repeat split; try done; by intros ? [= <-].
Qed.

(** A reader that [__init__] returned finds all the numbers it needs. *)
Lemma TextFile_numberize_configured (self : TextFile.t) (sentence : string) :
  TextFile.configured self ->
  TextFile.numberize self sentence = Ok (TextFile.tokenize self sentence).
Proof.
  intros (Hu & Hb & He). unfold TextFile.numberize, TextFile.tokenize.
  rewrite (marker_ok _ _ Hb). simpl.
  rewrite (words_ok _ _ _ Hu). simpl.
  by rewrite (marker_ok _ _ He).
Qed.

(** Whatever the dictionary, [numberize] raises nothing but [KeyError]. *)
Lemma TextFile_numberize_raise (self : TextFile.t) (sentence : string)
    (e : exn) :
  TextFile.numberize self sentence = Raise e -> exists k, e = KeyError k.
Proof.
  unfold TextFile.numberize.
  set (b := if truthy (TextFile.bos_token self) then _ else _).
  set (z := if truthy (TextFile.eos_token self) then _ else _).
  assert (forall (x : result (list Z)) e', 
            (x = b \/ x = z) -> x = Raise e' -> exists k, e' = KeyError k)
    as Hm.
  { intros x e' [->| ->]; subst b z;
      (destruct (truthy _); [|done]);
      unfold getitem; destruct (_ !! _); simpl; try done;
      intros [= <-]; by eexists. }
  destruct b as [bs|eb] eqn:Eb; simpl.
  2:{ intros [= <-]. apply (Hm (Raise eb)); [by left | done]. }
  match goal with |- context [mapM ?f ?l] => destruct (mapM f l) eqn:Ew end;
    simpl.
  2:{ intros [= <-]. apply words_raise in Ew. by eexists. }
  destruct z as [zs|ez] eqn:Ez; simpl; [done|].
  intros [= <-]. apply (Hm (Raise ez)); [by right | done].
Qed.

End TextFileNumbers.

Section TextFileReads.

Variable self : TextFile.t.
Variable fs : gmap string string.
Hypothesis files_exist :
  Forall (fun p => is_Some (fs !! p)) (TextFile.files self).

(** One [get_data(state, None)] call from a reading state. *)
Lemma TextFile_get_data_spec (st : TextFile.state) :
  TextFile.reading self st ->
  match TextFile.pending self fs st with
  | [] => exists st',
      TextFile.get_data self fs st None = Some (Raise StopIteration, st')
      /\ closed (TextFile.file st') = true
  | l :: ls => exists st',
      TextFile.get_data self fs st None
      = Some (TextFile.numberize self l, st')
      /\ TextFile.reading self st'
      /\ TextFile.pending self fs st' = ls
  end.
Proof.
  intros Hr.
  pose proof (TextFile_read_sentence_spec self fs files_exist
                (S (length (TextFile.files self))) st Hr ltac:(lia)) as H.
  unfold TextFile.get_data.
  destruct (TextFile.pending self fs st) as [|l ls].
  - destruct H as (st' & -> & Hc). by exists st'.
  - destruct H as (st' & -> & Hr' & Hp). by exists st'.
Qed.

Lemma TextFile_reads_S (n : nat) (st : TextFile.state) :
  TextFile.reads (S n) self fs st
  = match TextFile.get_data self fs st None with
    | None => [None]
    | Some (r, st') => Some r :: TextFile.reads n self fs st'
    end.
Proof. reflexivity. Qed.

(** Successive calls deliver the pending lines in order, then
    [StopIteration]. *)
Lemma TextFile_reads_pending (st : TextFile.state) :
  TextFile.reading self st ->
  TextFile.reads (S (length (TextFile.pending self fs st))) self fs st
  = map (fun l => Some (TextFile.numberize self l))
      (TextFile.pending self fs st)
    ++ [Some (Raise StopIteration)].
Proof.
  remember (TextFile.pending self fs st) as ls eqn:Hls.
  revert st Hls. induction ls as [|l ls IH]; intros st Hls Hr;
    pose proof (TextFile_get_data_spec st Hr) as H; rewrite <- Hls in H;
    rewrite TextFile_reads_S.
  - destruct H as (st' & -> & _). done.
  - destruct H as (st' & -> & Hr' & Hp).
    simpl. f_equal. by apply IH.
Qed.

(** [open] gives a reading state with the whole corpus pending. *)
Lemma TextFile_open_spec (st : TextFile.state) :
  TextFile.open self fs = Ok st ->
  TextFile.reading self st
  /\ TextFile.pending self fs st = TextFile.corpus self fs.
Proof.
  unfold TextFile.open.
  destruct (decide (0 < length (TextFile.files self))%nat) as [Hlen|Hlen].
  2:{ unfold TextFile._open_file. rewrite lookup_ge_None_2 by lia. done. }
  destruct (TextFile_open_file_ok self fs files_exist 0 Hlen)
    as (text & Ho & Hl).
  rewrite Ho. simpl. intros [= <-]. split.
  - by split.
  - unfold TextFile.pending, TextFile.corpus. simpl. by rewrite Hl.
Qed.

End TextFileReads.

Lemma open_raise (fs : gmap string string) (path : string) (e : exn) :
  Py.open fs path = Raise e -> e = IOError path.
Proof. unfold Py.open. destruct (fs !! path); [done|]. by intros [= <-]. Qed.

Lemma TextFile_open_file_raise (self : TextFile.t) (fs : gmap string string)
    (i : nat) (e : exn) :
  TextFile._open_file self fs i = Raise e -> e <> StopIteration.
Proof.
  unfold TextFile._open_file. destruct (TextFile.files self !! i).
  - intros ->%open_raise. done.
  - by intros [= <-].
Qed.

(** [StopIteration] leaves [get_data] only after [state.file.close()]. *)
Lemma TextFile_read_sentence_stop (fuel : nat) (self : TextFile.t)
    (fs : gmap string string) (st st' : TextFile.state) :
  TextFile.read_sentence fuel self fs st = Some (Raise StopIteration, st') ->
  closed (TextFile.file st') = true.
Proof.
  revert st. induction fuel as [|fuel IH]; intros st; simpl; [done|].
  unfold readline. destruct (closed (TextFile.file st)); [done|].
  destruct (next_line (rest (TextFile.file st))) as [[|c l] r].
  - destruct (_ =? _).
    + by intros [= <-].
    + destruct (TextFile._open_file self fs _) eqn:Ho; [apply IH|].
      apply TextFile_open_file_raise in Ho. congruence.
  - done.
Qed.

Lemma TextFile_get_data_stop (self : TextFile.t) (fs : gmap string string)
    (st st' : TextFile.state) (request : option Z) :
  TextFile.get_data self fs st request = Some (Raise StopIteration, st') ->
  closed (TextFile.file st') = true.
Proof.
  unfold TextFile.get_data. destruct request; [done|].
  destruct (TextFile.read_sentence _ self fs st) as [[[s|e] st1]|] eqn:Hr;
    [|intros [= -> ->]; by eapply TextFile_read_sentence_stop|done].
  intros [= Hn ->]. by destruct (TextFile_numberize_raise _ _ _ Hn).
Qed.

(** On a closed file [get_data] raises what [readline] raises, and the
    state stays as it was. *)
Lemma TextFile_get_data_closed (self : TextFile.t) (fs : gmap string string)
    (st : TextFile.state) :
  closed (TextFile.file st) = true ->
  TextFile.get_data self fs st None
  = Some (Raise (ValueError closed_file_msg), st).
Proof.
  intros Hc. unfold TextFile.get_data. simpl. unfold readline.
  by rewrite Hc.
Qed.

(** C2. A reader that [__init__] returned, over files that exist, once
    opened, delivers on successive [get_data(state, None)] calls the
    numbers of every line of every file, in the order of the files and of
    the lines in them, a file without lines contributing nothing and no
    call returning for it; the call after the last line raises
    [StopIteration].  No line so delivered is the empty string. *)
Theorem TextFile_reads_in_file_order
    (files : list string) (dictionary : gmap string Z)
    (bos eos : option string) (unk level : string)
    (preprocess : option (string -> string))
    (self : TextFile.t) (fs : gmap string string) (st : TextFile.state) :
  TextFile.init files dictionary bos eos unk level preprocess = Ok self ->
  Forall (fun p => is_Some (fs !! p)) files ->
  TextFile.open self fs = Ok st ->
  TextFile.reads (S (length (TextFile.corpus self fs))) self fs st
  = map (fun l => Some (Ok (TextFile.tokenize self l)))
      (TextFile.corpus self fs)
    ++ [Some (Raise StopIteration)]
  /\ Forall (fun l => l <> EmptyString) (TextFile.corpus self fs).
Proof.
  intros Hinit Hfiles Hopen.
  destruct (TextFile_init_configured _ _ _ _ _ _ _ _ Hinit) as [Hc Hself].
  assert (Forall (fun p => is_Some (fs !! p)) (TextFile.files self)) as Hex
    by (by rewrite Hself).
  destruct (TextFile_open_spec self fs Hex st Hopen) as [Hr Hp].
  split.
  - rewrite <- Hp, (TextFile_reads_pending self fs Hex st Hr).
    f_equal. apply map_ext. intros l.
    by rewrite TextFile_numberize_configured.
  - unfold TextFile.corpus. apply Forall_concat, Forall_map, Forall_forall.
    intros p _. apply Forall_lines_nonempty.
Qed.

Lemma TextFile_reads_in_file_order_witness :
  TextFile.reads
    (S (length (TextFile.corpus ThreeFiles.reader ThreeFiles.fs)))
    ThreeFiles.reader ThreeFiles.fs ThreeFiles.opened
  = map (fun l => Some (Ok (TextFile.tokenize ThreeFiles.reader l)))
      (TextFile.corpus ThreeFiles.reader ThreeFiles.fs)
    ++ [Some (Raise StopIteration)]
  /\ Forall (fun l => l <> EmptyString)
       (TextFile.corpus ThreeFiles.reader ThreeFiles.fs).
Proof.
  apply (TextFile_reads_in_file_order ThreeFiles.names ThreeFiles.vocabulary
           TextFile.default_bos TextFile.default_eos TextFile.default_unk
           TextFile.default_level None).
  - vm_compute. reflexivity.
  - repeat (constructor; [eexists; vm_compute; reflexivity|]). constructor.
  - vm_compute. reflexivity.
Defined.

(** The three-file corpus read to its end: two sentences, the empty file
    passed over, then [StopIteration]. *)
Example three_files_reads :
  TextFile.reads 3 ThreeFiles.reader ThreeFiles.fs ThreeFiles.opened
  = [Some (Ok [1; 3; 0; 2]); Some (Ok [1; 0; 2]); Some (Raise StopIteration)].
Proof. vm_compute. reflexivity. Qed.

(** C5. The docstring example: with the dictionary
    [{'<UNK>': 0, '</S>': 1, 'this': 2, 'a': 3, 'one': 4}], no BOS token,
    the default EOS and unknown tokens and [str.lower], the first read of
    a file that starts with the line "This is a sentence" returns
    [[2, 0, 3, 0, 1]]: no number for a BOS marker, 0 for the words that
    the dictionary lacks, 1 for the EOS marker at the end. *)
Theorem TextFile_docstring_example :
  TextFile.init ["sentences.txt"%string] DocExample.vocabulary None
    (Some "</S>"%string) "<UNK>" "word" (Some lower)
  = Ok DocExample.reader
  /\ TextFile.open DocExample.reader DocExample.fs = Ok DocExample.opened
  /\ (exists st',
        TextFile.get_data DocExample.reader DocExample.fs DocExample.opened
          None
        = Some (Ok [2; 0; 3; 0; 1], st'))
  /\ TextFile.numberize DocExample.reader
       ("This is a sentence" ++ String newline "")
     = Ok [2; 0; 3; 0; 1]
  /\ TextFile.reads 3 DocExample.reader DocExample.fs DocExample.opened
     = [Some (Ok [2; 0; 3; 0; 1]); Some (Ok [2; 0; 4; 1]);
        Some (Raise StopIteration)].
Proof.
  split; [vm_compute; reflexivity|].
  split; [vm_compute; reflexivity|].
  split; [eexists; vm_compute; reflexivity|].
  split; vm_compute; reflexivity.
Qed.

(** C6. [TextFile.__init__] raises its [ValueError] exactly when a
    required token is missing from the dictionary: the unknown token, or
    a BOS or EOS token that is not [None].  Otherwise it returns the
    reader, whatever the dictionary holds for a token that is [None].  A
    reader so returned never raises [KeyError] in [get_data]: no missing
    token is met at read time. *)
Theorem TextFile_init_fails_iff_token_missing
    (files : list string) (dictionary : gmap string Z)
    (bos eos : option string) (unk level : string)
    (preprocess : option (string -> string)) :
  let missing :=
    dictionary !! unk = None
    \/ (exists b, bos = Some b /\ dictionary !! b = None)
    \/ (exists e, eos = Some e /\ dictionary !! e = None) in
  (missing <->
   TextFile.init files dictionary bos eos unk level preprocess
   = Raise (ValueError ""))
  /\ (~ missing <->
      TextFile.init files dictionary bos eos unk level preprocess
      = Ok (TextFile.Build files dictionary bos eos unk level preprocess))
  /\ (forall self,
        TextFile.init files dictionary bos eos unk level preprocess
        = Ok self ->
        (forall sentence,
           TextFile.numberize self sentence
           = Ok (TextFile.tokenize self sentence))
        /\ forall fs st request r st' k,
             TextFile.get_data self fs st request = Some (r, st') ->
             r <> Raise (KeyError k)).
Proof.
  intros missing.
  assert (missing ->
          TextFile.init files dictionary bos eos unk level preprocess
          = Raise (ValueError "")) as Hfail.
  { unfold TextFile.init.
    intros [Hu|[(b & -> & Hb)|(e & -> & He)]].
    - apply contains_false in Hu. rewrite Hu. simpl.
      by repeat match goal with |- context [if ?c then _ else _] =>
                  destruct c end.
    - apply contains_false in Hb. by rewrite Hb.
    - apply contains_false in He. rewrite He. simpl.
      by repeat match goal with |- context [if ?c then _ else _] =>
                  destruct c end. }
  assert (~ missing ->
          TextFile.init files dictionary bos eos unk level preprocess
          = Ok (TextFile.Build files dictionary bos eos unk level preprocess))
    as Hok.
  { intros Hn. unfold TextFile.init.
    assert (contains dictionary unk = true) as ->.
    { destruct (contains dictionary unk) eqn:E; [done|].
      apply contains_false in E. destruct Hn. by left. }
    assert (match bos with
            | Some b => negb (contains dictionary b)
            | None => false
            end = false) as ->.
    { destruct bos as [b|]; [|done].
      destruct (contains dictionary b) eqn:E; [done|].
      apply contains_false in E. destruct Hn. right. left. by exists b. }
    assert (match eos with
            | Some e => negb (contains dictionary e)
            | None => false
            end = false) as ->.
    { destruct eos as [e|]; [|done].
      destruct (contains dictionary e) eqn:E; [done|].
      apply contains_false in E. destruct Hn. right. right. by exists e. }
    done. }
  split; [|split].
  - split; [done|]. intros Hr.
    destruct (decide (dictionary !! unk = None)) as [|Hu]; [by left|].
    destruct bos as [b|].
    + destruct (decide (dictionary !! b = None)) as [|Hb];
        [right; left; by exists b|].
      destruct eos as [e|].
      * destruct (decide (dictionary !! e = None)) as [|He];
          [right; right; by exists e|].
        rewrite Hok in Hr; [done|].
        intros [?|[(? & [= <-] & ?)|(? & [= <-] & ?)]]; done.
      * rewrite Hok in Hr; [done|].
        intros [?|[(? & [= <-] & ?)|(? & [=] & ?)]]; done.
    + destruct eos as [e|].
      * destruct (decide (dictionary !! e = None)) as [|He];
          [right; right; by exists e|].
        rewrite Hok in Hr; [done|].
        intros [?|[(? & [=] & ?)|(? & [= <-] & ?)]]; done.
      * rewrite Hok in Hr; [done|].
        intros [?|[(? & [=] & ?)|(? & [=] & ?)]]; done.
  - split; [done|]. intros Hr Hm. by rewrite (Hfail Hm) in Hr.
  - intros self Hinit.
    destruct (TextFile_init_configured _ _ _ _ _ _ _ _ Hinit) as [Hc _].
    split; [intros; by apply TextFile_numberize_configured|].
    intros fs st request r st' k. unfold TextFile.get_data.
    destruct request; [by intros [= <- _]|].
    destruct (TextFile.read_sentence _ self fs st) as [[[s|e] st1]|] eqn:Hr;
      [| |done].
    + rewrite TextFile_numberize_configured by done. by intros [= <- _].
    + intros [= <- _] [= ->]. revert Hr. clear.
      generalize (S (length (TextFile.files self))). intros fuel.
      revert st. induction fuel as [|fuel IH]; intros st; simpl; [done|].
      unfold readline. destruct (closed (TextFile.file st)); [done|].
      destruct (next_line (rest (TextFile.file st))) as [[|c l] r]; [|done].
      destruct (_ =? _); [done|].
      destruct (TextFile._open_file self fs _) eqn:Ho; [apply IH|].
      intros [= -> _]. revert Ho. unfold TextFile._open_file.
      destruct (_ !! _); [|done]. by intros [=]%open_raise.
Qed.

Lemma TextFile_init_fails_iff_token_missing_witness :
  TextFile.init ["sentences.txt"%string] ∅ None None "<UNK>" "word" None
  = Raise (ValueError "")
  /\ TextFile.init ["sentences.txt"%string] DocExample.vocabulary
       (Some "<S>"%string) (Some "</S>"%string) "<UNK>" "word" None
     = Raise (ValueError "")
  /\ TextFile.init ["sentences.txt"%string] DocExample.vocabulary
       None (Some "</S>"%string) "<UNK>" "word" (Some lower)
     = Ok DocExample.reader.
Proof.
  split; [|split].
  - apply (proj1 (TextFile_init_fails_iff_token_missing
                    ["sentences.txt"%string] ∅ None None "<UNK>" "word" None)).
    left. reflexivity.
  - apply (proj1 (TextFile_init_fails_iff_token_missing
                    ["sentences.txt"%string] DocExample.vocabulary
                    (Some "<S>"%string) (Some "</S>"%string) "<UNK>" "word"
                    None)).
    right. left. exists "<S>"%string. split; [reflexivity|].
    vm_compute. reflexivity.
  - apply (proj1 (proj2 (TextFile_init_fails_iff_token_missing
                    ["sentences.txt"%string] DocExample.vocabulary
                    None (Some "</S>"%string) "<UNK>" "word" (Some lower)))).
    intros [H|[(b & H & _)|(e & H & He)]].
    + vm_compute in H. discriminate H.
    + discriminate H.
    + injection H as <-. vm_compute in He. discriminate He.
Defined.

(** [get_data] never reads [self.level]. *)
Lemma TextFile_read_sentence_level (fuel : nat)
    (files : list string) (dictionary : gmap string Z)
    (bos eos : option string) (unk level1 level2 : string)
    (preprocess : option (string -> string))
    (fs : gmap string string) (st : TextFile.state) :
  TextFile.read_sentence fuel
    (TextFile.Build files dictionary bos eos unk level1 preprocess) fs st
  = TextFile.read_sentence fuel
      (TextFile.Build files dictionary bos eos unk level2 preprocess) fs st.
Proof.
  revert st. induction fuel as [|fuel IH]; intros st; simpl; [done|].
  destruct (readline (TextFile.file st)) as [[[|c l] f]|e]; try done.
  destruct (_ =? _); [done|].
  unfold TextFile._open_file. simpl.
  destruct (files !! S (TextFile.current_index st)); [|done].
  destruct (Py.open fs _); [apply IH | done].
Qed.

(** C8 (what the code does).  [get_data] is the same function for every
    [level]: with [level='character'] as with [level='word'] it returns
    one number for each word of the line, in a flat list.  With the
    dictionary [{'<UNK>': 0, 'a': 1, 'b': 2}], no BOS and no EOS token
    and [level='character'], the line "ab ba" gives [[0, 0]], the number
    of the unknown token for each of the two words, and not a list of
    their letters' numbers word by word. *)
Theorem TextFile_level_is_ignored :
  (forall files dictionary bos eos unk level1 level2 preprocess fs st request,
     TextFile.get_data
       (TextFile.Build files dictionary bos eos unk level1 preprocess)
       fs st request
     = TextFile.get_data
         (TextFile.Build files dictionary bos eos unk level2 preprocess)
         fs st request)
  /\ TextFile.level Letters.reader = "character"%string
  /\ TextFile.open Letters.reader Letters.fs = Ok Letters.opened
  /\ TextFile.reads 2 Letters.reader Letters.fs Letters.opened
     = [Some (Ok [0; 0]); Some (Raise StopIteration)].
Proof.
  split; [|repeat split; vm_compute; reflexivity].
  intros. unfold TextFile.get_data. destruct request; [done|].
  rewrite (TextFile_read_sentence_level _ _ _ _ _ _ level1 level2).
  by destruct (TextFile.read_sentence _ _ fs st) as [[[s|e] st1]|].
Qed.

(** ** [OneBillionWord] *)

Section OneBillionWordFacts.

Variable data_path : string.
Variable fs : gmap string string.
Variable self : OneBillionWord.t.

Local Abbreviation parts := (OneBillionWord.which_partitions self).
Local Abbreviation pending := (OneBillionWord.pending data_path fs self).
Local Abbreviation reading := (OneBillionWord.reading self).
Local Abbreviation raw := (OneBillionWord.raw_sequence (OneBillionWord.dictionary self)).

Lemma OneBillionWord_numberize_complete (sentence : string) :
  OneBillionWord.complete (OneBillionWord.dictionary self) ->
  OneBillionWord.numberize self sentence = Ok (raw sentence).
Proof.
  intros (Hb & He & Hu). unfold OneBillionWord.numberize.
  rewrite (getitem_total _ _ Hb), (words_ok _ _ _ Hu), (getitem_total _ _ He).
  reflexivity.
Qed.

Lemma OneBillionWord_numberize_raise (sentence : string) (e : exn) :
  OneBillionWord.numberize self sentence = Raise e -> exists k, e = KeyError k.
Proof.
  unfold OneBillionWord.numberize, getitem.
  destruct (_ !! "<S>"%string); simpl; [|intros [= <-]; by eexists].
  match goal with |- context [mapM ?f ?l] => destruct (mapM f l) eqn:Ew end;
    simpl.
  2:{ intros [= <-]. apply words_raise in Ew. by eexists. }
  destruct (_ !! "</S>"%string); simpl; [done|intros [= <-]; by eexists].
Qed.

Lemma OneBillionWord_open_file_raise (i : nat) (e : exn) :
  OneBillionWord._open_file data_path fs self i = Raise e ->
  e <> StopIteration /\ forall k, e <> KeyError k.
Proof.
  unfold OneBillionWord._open_file. destruct (parts !! i).
  - intros ->%open_raise. done.
  - by intros [= <-].
Qed.

(** Every selected partition has its file on the disk. *)
Hypothesis files_exist :
  Forall (fun p => is_Some
                     (fs !! OneBillionWord.partition_path data_path self p))
    parts.

Lemma OneBillionWord_open_file_ok (i : nat) :
  (i < length parts)%nat ->
  exists text,
    OneBillionWord._open_file data_path fs self i = Ok (File text false)
    /\ lines text
       ++ concat (map (OneBillionWord.lines_at data_path fs self)
                    (drop (S i) parts))
       = concat (map (OneBillionWord.lines_at data_path fs self)
                   (drop i parts)).
Proof.
  intros Hi. destruct (lookup_lt_is_Some_2 _ _ Hi) as [p Hp].
  rewrite Forall_lookup in files_exist.
  destruct (files_exist _ _ Hp) as [text Ht].
  exists text. split.
  - unfold OneBillionWord._open_file, Py.open. by rewrite Hp, Ht.
  - rewrite (drop_S _ _ _ Hp). simpl.
    unfold OneBillionWord.lines_at at 2. by rewrite Ht.
Qed.

Hypothesis dictionary_complete :
  OneBillionWord.complete (OneBillionWord.dictionary self).

(** The loop of [get_data] from a reading state with [data] collected:
    when enough lines are pending it takes as many as are still asked
    for; otherwise it takes them all, closes the last file, and returns
    what it has, or raises [StopIteration] when it has nothing. *)
Lemma OneBillionWord_collect_spec (fuel : nat) (st : OneBillionWord.state)
    (data : list (list Z)) (request : Z) :
  let need := Z.to_nat (request - Z.of_nat (length data)) in
  reading st ->
  (need + (length parts - OneBillionWord.current_index st) <= fuel)%nat ->
  ((need <= length (pending st))%nat ->
   exists st',
     OneBillionWord.collect data_path fs fuel self st data request
     = Some (Ok (data ++ map raw (take need (pending st))), st')
     /\ reading st'
     /\ pending st' = drop need (pending st))
  /\ ((length (pending st) < need)%nat ->
      exists st',
        OneBillionWord.collect data_path fs fuel self st data request
        = Some (match data ++ map raw (pending st) with
                | [] => Raise StopIteration
                | batch => Ok batch
                end, st')
        /\ closed (OneBillionWord.file st') = true).
Proof.
  intros need. subst need.
  revert st data. induction fuel as [|fuel IH];
    intros [i [text cl]] data [Hcl Hi] Hfuel; simpl in *; [lia|]. subst cl.
  destruct (Z.ltb_spec (Z.of_nat (length data)) request) as [Hlt|Hge].
  2:{ (* enough has been collected *)
    replace (Z.to_nat (request - Z.of_nat (length data))) with 0%nat by lia.
    split; [|intros; lia]. intros _. eexists. rewrite app_nil_r.
    split; [done|]. by split. }
  destruct (Z.to_nat (request - Z.of_nat (length data))) as [|n] eqn:Hneed;
    [lia|].
  unfold OneBillionWord.pending, readline. simpl.
  destruct text as [|c text].
  - (* the file is exhausted *)
    simpl. destruct (Z.eqb_spec (Z.of_nat i) (Z.of_nat (length parts) - 1))
      as [Hlast|Hlast].
    + rewrite drop_ge by lia. simpl. split; [intros; lia|]. intros _.
      rewrite app_nil_r.
      exists (OneBillionWord.State i (close (File EmptyString false))).
      split; [by destruct data | done].
    + destruct (OneBillionWord_open_file_ok (S i)) as (text' & Ho & Hl);
        [lia|].
      rewrite Ho, <- Hl.
      specialize (IH (OneBillionWord.State (S i) (File text' false)) data).
      unfold OneBillionWord.pending in IH. simpl in IH. rewrite Hneed in IH.
      apply IH; [split; simpl; [done|lia] | simpl; lia].
  - destruct (next_line_lines c text) as (l & r & Hn & Hl).
    rewrite Hn, Hl. simpl.
    rewrite OneBillionWord_numberize_complete by done.
    specialize (IH (OneBillionWord.State i (File r false))
                  (data ++ [raw (String c l)])).
    unfold OneBillionWord.pending in IH. simpl in IH.
    rewrite length_app in IH. simpl in IH.
    replace (Z.to_nat (request - Z.of_nat (length data + 1))) with n in IH
      by lia.
    destruct IH as [IH1 IH2]; [by split | lia |].
    split; intros Hlen.
    + destruct IH1 as (st' & -> & Hr & Hp); [lia|].
      exists st'. rewrite <- app_assoc. by split.
    + destruct IH2 as (st' & -> & Hc); [lia|].
      exists st'. rewrite <- app_assoc. by split.
Qed.

End OneBillionWordFacts.

Section OneBillionWordCalls.

Variable data_path : string.
Variable fs : gmap string string.
Variable self : OneBillionWord.t.

Local Abbreviation parts := (OneBillionWord.which_partitions self).
Local Abbreviation pending := (OneBillionWord.pending data_path fs self).
Local Abbreviation reading := (OneBillionWord.reading self).
Local Abbreviation raw :=
  (OneBillionWord.raw_sequence (OneBillionWord.dictionary self)).
Local Abbreviation get_data := (OneBillionWord.get_data data_path fs self).

(** [StopIteration] leaves the loop only after [state.file.close()]. *)
Lemma OneBillionWord_collect_stop (fuel : nat) (st st' : OneBillionWord.state)
    (data : list (list Z)) (request : Z) :
  OneBillionWord.collect data_path fs fuel self st data request
  = Some (Raise StopIteration, st') ->
  closed (OneBillionWord.file st') = true.
Proof.
  revert st data. induction fuel as [|fuel IH]; intros st data; simpl;
    [done|].
  destruct (_ <? _); [|done].
  unfold readline. destruct (closed (OneBillionWord.file st)); [done|].
  destruct (next_line (rest (OneBillionWord.file st))) as [[|c l] r].
  - destruct (_ =? _).
    + destruct data; [by intros [= <-] | done].
    + destruct (OneBillionWord._open_file data_path fs self _) eqn:Ho;
        [apply IH|].
      apply OneBillionWord_open_file_raise in Ho. intros [= -> _]. by destruct Ho.
  - destruct (OneBillionWord.numberize self _) eqn:Hn; [apply IH|].
    apply OneBillionWord_numberize_raise in Hn as [k ->]. done.
Qed.

(** On a closed file a call that asks for at least one sentence raises
    what [readline] raises, and the state stays as it was. *)
Lemma OneBillionWord_get_data_closed (st : OneBillionWord.state)
    (request : Z) :
  closed (OneBillionWord.file st) = true -> 0 < request ->
  get_data st request = Some (Raise (ValueError closed_file_msg), st).
Proof.
  intros Hc Hr. unfold OneBillionWord.get_data.
  cbn [OneBillionWord.collect].
  assert ((Z.of_nat (length (@nil (list Z))) <? request) = true) as ->
    by (apply Z.ltb_lt; simpl; lia).
  unfold readline. by rewrite Hc.
Qed.

Hypothesis files_exist :
  Forall (fun p => is_Some
                     (fs !! OneBillionWord.partition_path data_path self p))
    parts.
Hypothesis dictionary_complete :
  OneBillionWord.complete (OneBillionWord.dictionary self).

(** One [get_data(state, request)] call from a reading state. *)
Lemma OneBillionWord_get_data_spec (st : OneBillionWord.state) (request : Z) :
  let n := Z.to_nat request in
  reading st ->
  ((n <= length (pending st))%nat ->
   exists st',
     get_data st request = Some (Ok (map raw (take n (pending st))), st')
     /\ reading st'
     /\ pending st' = drop n (pending st))
  /\ ((length (pending st) < n)%nat ->
      exists st',
        get_data st request
        = Some (match map raw (pending st) with
                | [] => Raise StopIteration
                | batch => Ok batch
                end, st')
        /\ closed (OneBillionWord.file st') = true).
Proof.
  intros n Hr. subst n.
  pose proof (OneBillionWord_collect_spec data_path fs self files_exist
                dictionary_complete
                (S (Z.to_nat request + length parts)) st [] request Hr) as H.
  simpl in H. rewrite Z.sub_0_r in H.
  apply H. lia.
Qed.

(** [open] gives a reading state with the whole corpus pending. *)
Lemma OneBillionWord_open_spec (st : OneBillionWord.state) :
  OneBillionWord.open data_path fs self = Ok st ->
  reading st /\ pending st = OneBillionWord.corpus data_path fs self.
Proof.
  unfold OneBillionWord.open.
  destruct (decide (0 < length parts)%nat) as [Hlen|Hlen].
  2:{ unfold OneBillionWord._open_file. rewrite lookup_ge_None_2 by lia.
      done. }
  destruct (OneBillionWord_open_file_ok data_path fs self files_exist 0 Hlen)
    as (text & Ho & Hl).
  rewrite Ho. simpl. intros [= <-]. split.
  - by split.
  - unfold OneBillionWord.pending, OneBillionWord.corpus. simpl.
    by rewrite Hl.
Qed.

End OneBillionWordCalls.

Section OneBillionWordRaw.

Variable data_path : string.
Variable fs : gmap string string.
Variable self : OneBillionWord.t.

Local Abbreviation parts := (OneBillionWord.which_partitions self).
Local Abbreviation pending := (OneBillionWord.pending data_path fs self).
Local Abbreviation raw :=
  (OneBillionWord.raw_sequence (OneBillionWord.dictionary self)).

(** When line 191 to 193 raise nothing, they give the numbers of the raw
    line. *)
Lemma OneBillionWord_numberize_ok (sentence : string) (s : list Z) :
  OneBillionWord.numberize self sentence = Ok s -> s = raw sentence.
Proof.
  unfold OneBillionWord.numberize, OneBillionWord.raw_sequence.
  intros (b & Hb & (ws & Hw & (e & He & [= <-])%bind_ok)%bind_ok)%bind_ok.
  apply getitem_ok in Hb as ->. apply getitem_ok in He as ->.
  by apply words_ok_inv in Hw as ->.
Qed.

Lemma OneBillionWord_open_file_inv (i : nat) (f : Py.file) :
  OneBillionWord._open_file data_path fs self i = Ok f ->
  exists p, parts !! i = Some p
            /\ lines (rest f) = OneBillionWord.lines_at data_path fs self p
            /\ closed f = false.
Proof.
  unfold OneBillionWord._open_file, Py.open.
  destruct (parts !! i) as [p|]; [|done].
  destruct (fs !! _) as [text|] eqn:Ht; [|done].
  intros [= <-]. exists p. unfold OneBillionWord.lines_at. by rewrite Ht.
Qed.

(** Whatever the state, the dictionary and the disk: a batch that the
    loop returns is what it had, then the numbers of the raw pending
    lines, as many as were still asked for. *)
Lemma OneBillionWord_collect_ok (fuel : nat) (st st' : OneBillionWord.state)
    (data batch : list (list Z)) (request : Z) :
  OneBillionWord.collect data_path fs fuel self st data request
  = Some (Ok batch, st') ->
  batch = data ++ map raw (take (Z.to_nat (request - Z.of_nat (length data)))
                             (pending st)).
Proof.
  revert st data. induction fuel as [|fuel IH]; intros [i [text cl]] data;
    simpl; [done|].
  destruct (Z.ltb_spec (Z.of_nat (length data)) request) as [Hlt|Hge].
  2:{ intros [= <- _].
      replace (Z.to_nat (request - Z.of_nat (length data))) with 0%nat by lia.
      by rewrite app_nil_r. }
  destruct (Z.to_nat (request - Z.of_nat (length data))) as [|n] eqn:Hneed;
    [lia|].
  unfold readline, OneBillionWord.pending. simpl.
  destruct cl; [done|].
  destruct text as [|c text].
  - simpl. destruct (Z.eqb_spec (Z.of_nat i) (Z.of_nat (length parts) - 1))
      as [Hlast|Hlast].
    + destruct data as [|d data]; [done|]. intros [= <- _].
      rewrite drop_ge by lia. simpl. by rewrite app_nil_r.
    + destruct (OneBillionWord._open_file data_path fs self (S i)) as [f'|]
        eqn:Ho; [|done].
      destruct (OneBillionWord_open_file_inv _ _ Ho) as (p & Hp & Hl & Hc).
      intros H. apply IH in H. rewrite Hneed in H.
      unfold OneBillionWord.pending in H. simpl in H.
      rewrite (drop_S _ _ _ Hp). simpl. by rewrite <- Hl.
  - destruct (next_line_lines c text) as (l & r & Hn & Hl).
    rewrite Hn, Hl. simpl.
    destruct (OneBillionWord.numberize self (String c l)) as [s|] eqn:Hs;
      [|done].
    apply OneBillionWord_numberize_ok in Hs as ->.
    intros H. apply IH in H. rewrite length_app in H. simpl in H.
    replace (Z.to_nat (request - Z.of_nat (length data + 1))) with n in H
      by lia.
    unfold OneBillionWord.pending in H. simpl in H.
    by rewrite <- app_assoc in H.
Qed.

(** The loop never reads [self.preprocess]. *)
Lemma OneBillionWord_collect_preprocess (fuel : nat)
    (which_set : string) (which_partitions : list Z)
    (dictionary : gmap string Z) (p1 p2 : option (string -> string))
    (st : OneBillionWord.state) (data : list (list Z)) (request : Z) :
  OneBillionWord.collect data_path fs fuel
    (OneBillionWord.Build which_set which_partitions dictionary p1)
    st data request
  = OneBillionWord.collect data_path fs fuel
      (OneBillionWord.Build which_set which_partitions dictionary p2)
      st data request.
Proof.
  revert st data. induction fuel as [|fuel IH]; intros st data; simpl;
    [done|].
  destruct (_ <? _); [|done].
  destruct (readline (OneBillionWord.file st)) as [[[|c l] f]|e]; try done.
  - destruct (_ =? _); [done|].
    unfold OneBillionWord._open_file. simpl.
    destruct (which_partitions !! S (OneBillionWord.current_index st));
      [|done].
    change (OneBillionWord.partition_path data_path
              (OneBillionWord.Build which_set which_partitions dictionary p1))
      with (OneBillionWord.partition_path data_path
              (OneBillionWord.Build which_set which_partitions dictionary p2)).
    destruct (Py.open fs _); [apply IH | done].
  - change (OneBillionWord.numberize
              (OneBillionWord.Build which_set which_partitions dictionary p1))
      with (OneBillionWord.numberize
              (OneBillionWord.Build which_set which_partitions dictionary p2)).
    destruct (OneBillionWord.numberize _ _); [apply IH | done].
Qed.

End OneBillionWordRaw.

(** C3 (what the code does).  One training partition with the single
    line "a b", a request for two sentences: the call returns the partial
    batch of one sentence, [[0, 3, 2, 1]], having closed the file; the
    following call, and every later one, raises
    [ValueError("I/O operation on closed file")] and not
    [StopIteration]. *)
Theorem OneBillionWord_partial_batch_then_closed_file :
  OneBillionWord.open OnePartition.data_path OnePartition.fs
    OnePartition.reader
  = Ok OnePartition.opened
  /\ OneBillionWord.get_data OnePartition.data_path OnePartition.fs
       OnePartition.reader OnePartition.opened 2
     = Some (Ok [[0; 3; 2; 1]], OnePartition.drained)
  /\ OneBillionWord.get_data OnePartition.data_path OnePartition.fs
       OnePartition.reader OnePartition.drained 2
     = Some (Raise (ValueError closed_file_msg), OnePartition.drained)
  /\ OneBillionWord.batches OnePartition.data_path OnePartition.fs 3
       OnePartition.reader OnePartition.opened 2
     = [Some (Ok [[0; 3; 2; 1]]);
        Some (Raise (ValueError closed_file_msg));
        Some (Raise (ValueError closed_file_msg))].
Proof. repeat split; vm_compute; reflexivity. Qed.

(** X1. The sizes of the batches of [OneBillionWord.get_data], for a reading
    state over partitions that exist and a dictionary with the three
    tokens, asked for [request > 0] sentences: when at least [request]
    lines are pending, exactly [request] sequences, those of the first
    pending lines, and the state goes on reading after them; when some
    but fewer are pending, exactly that many, those of all of them;
    [StopIteration] when, and only when, none is pending; and never an
    empty batch. *)
Theorem OneBillionWord_batch_sizes
    (data_path : string) (fs : gmap string string) (self : OneBillionWord.t)
    (st : OneBillionWord.state) (request : Z) :
  Forall (fun p => is_Some
                     (fs !! OneBillionWord.partition_path data_path self p))
    (OneBillionWord.which_partitions self) ->
  OneBillionWord.complete (OneBillionWord.dictionary self) ->
  OneBillionWord.reading self st ->
  0 < request ->
  let pending := OneBillionWord.pending data_path fs self st in
  let raw := OneBillionWord.raw_sequence (OneBillionWord.dictionary self) in
  exists r st',
    OneBillionWord.get_data data_path fs self st request = Some (r, st')
    /\ r <> Ok []
    /\ (request <= Z.of_nat (length pending) ->
        r = Ok (map raw (take (Z.to_nat request) pending))
        /\ Z.of_nat (length (map raw (take (Z.to_nat request) pending)))
           = request
        /\ OneBillionWord.reading self st'
        /\ OneBillionWord.pending data_path fs self st'
           = drop (Z.to_nat request) pending)
    /\ (0 < Z.of_nat (length pending) < request ->
        r = Ok (map raw pending)
        /\ closed (OneBillionWord.file st') = true)
    /\ (pending = [] <-> r = Raise StopIteration).
Proof.
  intros Hfiles Hd Hr Hreq pending raw.
  destruct (OneBillionWord_get_data_spec data_path fs self Hfiles Hd st
              request Hr) as [Henough Hshort].
  fold pending in Henough, Hshort. fold raw in Henough, Hshort.
  destruct (decide (Z.to_nat request <= length pending)%nat) as [Hle|Hgt].
  - destruct (Henough Hle) as (st' & Hg & Hr' & Hp).
    exists (Ok (map raw (take (Z.to_nat request) pending))), st'.
    assert (length (map raw (take (Z.to_nat request) pending))
            = Z.to_nat request) as Hlen
      by (rewrite length_map, length_take; lia).
    split; [done|]. split.
    { intros [= H]. rewrite H in Hlen. simpl in Hlen. lia. }
    split.
    { intros _. split; [done|]. split; [rewrite Hlen; lia|]. by split. }
    split; [lia|].
    split; [|done]. intros Hnil. rewrite Hnil in Hle. simpl in Hle. lia.
  - destruct Hshort as (st' & Hg & Hc); [lia|].
    eexists _, st'. split; [exact Hg|].
    destruct pending as [|l ls] eqn:Hpend; simpl.
    + split; [done|]. split; [simpl; lia|]. split; [simpl; lia|]. done.
    + split; [done|]. split; [simpl in *; lia|]. split; [done|]. done.
Qed.

Lemma OneBillionWord_batch_sizes_witness :
  exists r st',
    OneBillionWord.get_data OnePartition.data_path OnePartition.fs
      OnePartition.reader OnePartition.opened 1
    = Some (r, st')
    /\ r = Ok [[0; 3; 2; 1]]
    /\ OneBillionWord.reading OnePartition.reader st'.
Proof.
  destruct (OneBillionWord_batch_sizes OnePartition.data_path OnePartition.fs
              OnePartition.reader OnePartition.opened 1)
    as (r & st' & Hg & _ & Hfull & _).
  - repeat (constructor; [eexists; vm_compute; reflexivity|]). constructor.
  - repeat split; eexists; vm_compute; reflexivity.
  - split; [reflexivity | simpl; lia].
  - lia.
  - exists r, st'. split; [exact Hg|].
    destruct Hfull as (Hr & _ & Hrd & _); [vm_compute; discriminate|].
    split; [exact Hr | exact Hrd].
Defined.

(** C4, as the design document states it, fails: the docstring reader at
    the end of its file raises [StopIteration], and the next call on the
    state it left does not raise [StopIteration] again. *)
Lemma exhausted_reader_resignals_counterexample :
  ~ (forall self fs st st',
       TextFile.get_data self fs st None = Some (Raise StopIteration, st') ->
       exists st'',
         TextFile.get_data self fs st' None
         = Some (Raise StopIteration, st'')).
Proof.
  intros H.
  destruct (H DocExample.reader DocExample.fs DocExample.at_end
              DocExample.exhausted) as [st'' Hst].
  - vm_compute. reflexivity.
  - vm_compute in Hst. discriminate Hst.
Qed.

(** C4, amended.  On a state that a [get_data] call left when it raised
    [StopIteration], every further call (with no request on a [TextFile],
    for at least one sentence on a [OneBillionWord]) raises
    [ValueError("I/O operation on closed file")] and leaves the state as
    it was, so that each later call does the same. *)
Theorem exhausted_reader_raises_closed_file_error :
  (forall self fs st st' request,
     TextFile.get_data self fs st request = Some (Raise StopIteration, st') ->
     TextFile.get_data self fs st' None
     = Some (Raise (ValueError closed_file_msg), st'))
  /\ (forall data_path fs self st st' request request',
        OneBillionWord.get_data data_path fs self st request
        = Some (Raise StopIteration, st') ->
        0 < request' ->
        OneBillionWord.get_data data_path fs self st' request'
        = Some (Raise (ValueError closed_file_msg), st')).
Proof.
  split.
  - intros self fs st st' request H.
    apply TextFile_get_data_closed. by eapply TextFile_get_data_stop.
  - intros data_path fs self st st' request request' H Hpos.
    apply OneBillionWord_get_data_closed; [|done].
    by eapply OneBillionWord_collect_stop.
Qed.

Lemma exhausted_reader_raises_closed_file_error_witness :
  TextFile.get_data DocExample.reader DocExample.fs DocExample.exhausted None
  = Some (Raise (ValueError closed_file_msg), DocExample.exhausted)
  /\ OneBillionWord.get_data OnePartition.data_path OnePartition.fs
       OnePartition.reader OnePartition.drained 1
     = Some (Raise (ValueError closed_file_msg), OnePartition.drained).
Proof.
  split.
  - apply (proj1 exhausted_reader_raises_closed_file_error
             DocExample.reader DocExample.fs DocExample.at_end
             DocExample.exhausted None).
    vm_compute. reflexivity.
  - apply (proj2 exhausted_reader_raises_closed_file_error
             OnePartition.data_path OnePartition.fs OnePartition.reader
             (OneBillionWord.State 0 (File EmptyString false))
             OnePartition.drained 1 1).
    + vm_compute. reflexivity.
    + lia.
Defined.

(** C9. [OneBillionWord.get_data] never applies [self.preprocess]: its
    outcome and the state it leaves are the same for every [preprocess],
    [None] included; and, for every state and request, a batch that it
    returns holds the numbers of the raw pending lines, the first
    [request] of them: the words that [split()] finds in the line as
    read, each with its number or with that of ['<UNK>'], between the
    numbers of ['<S>'] and ['</S>']. *)
Theorem OneBillionWord_preprocess_is_ignored :
  (forall data_path fs which_set which_partitions dictionary p1 p2 st request,
     OneBillionWord.get_data data_path fs
       (OneBillionWord.Build which_set which_partitions dictionary p1)
       st request
     = OneBillionWord.get_data data_path fs
         (OneBillionWord.Build which_set which_partitions dictionary p2)
         st request)
  /\ (forall data_path fs self st request batch st',
        OneBillionWord.get_data data_path fs self st request
        = Some (Ok batch, st') ->
        batch
        = map (OneBillionWord.raw_sequence (OneBillionWord.dictionary self))
            (take (Z.to_nat request)
               (OneBillionWord.pending data_path fs self st))).
Proof.
  split.
  - intros. apply OneBillionWord_collect_preprocess.
  - intros data_path fs self st request batch st' H.
    apply OneBillionWord_collect_ok in H. simpl in H.
    by rewrite Z.sub_0_r in H.
Qed.

Lemma OneBillionWord_preprocess_is_ignored_witness :
  [[0; 3; 2; 1]]
  = map (OneBillionWord.raw_sequence
           (OneBillionWord.dictionary OnePartition.reader))
      (take (Z.to_nat 2)
         (OneBillionWord.pending OnePartition.data_path OnePartition.fs
            OnePartition.reader OnePartition.opened)).
Proof.
  apply (proj2 OneBillionWord_preprocess_is_ignored OnePartition.data_path
           OnePartition.fs OnePartition.reader OnePartition.opened 2
           [[0; 3; 2; 1]] OnePartition.drained).
  vm_compute. reflexivity.
Defined.

(** The reader of [OnePartition] with [str.lower] for [preprocess] returns
    the numbers of the raw line all the same: "A" stays unknown. *)
Example preprocess_lower_not_applied :
  OneBillionWord.get_data OnePartition.data_path
    {[ OnePartition.path := ("A b" ++ String newline "")%string ]}
    (OneBillionWord.Build "training" [1] OnePartition.vocabulary (Some lower))
    (OneBillionWord.State 0 (File ("A b" ++ String newline "") false)) 1
  = Some (Ok [[0; 2; 2; 1]],
          OneBillionWord.State 0 (File EmptyString false)).
Proof. vm_compute. reflexivity. Qed.

(** C10. [OneBillionWord.__init__] never raises: it stores its four
    arguments as they are.  [_open_file] takes the partition number at
    the index and opens the path made from it, with the training names
    when [which_set] is exactly ['training'] and with the held-out names
    for every other value; the number goes through ['{:05d}'] whatever
    it is, inside or outside the ranges of the docstring. *)
Theorem OneBillionWord_init_never_fails :
  (forall which_set which_partitions dictionary preprocess,
     OneBillionWord.init which_set which_partitions dictionary preprocess
     = Ok (OneBillionWord.Build which_set which_partitions dictionary
             preprocess))
  /\ (forall data_path self partition,
        OneBillionWord.which_set self <> "training"%string ->
        OneBillionWord.partition_path data_path self partition
        = OneBillionWord.path_join data_path
            ["1-billion-word"; "heldout-monolingual.tokenized.shuffled";
             "news.en.heldout-" ++ OneBillionWord.format_05d partition
             ++ "-of-00050"]%string)
  /\ (forall data_path self partition,
        OneBillionWord.which_set self = "training"%string ->
        OneBillionWord.partition_path data_path self partition
        = OneBillionWord.path_join data_path
            ["1-billion-word"; "training-monolingual.tokenized.shuffled";
             "news.en-" ++ OneBillionWord.format_05d partition
             ++ "-of-00100"]%string)
  /\ (forall data_path fs self i partition,
        OneBillionWord.which_partitions self !! i = Some partition ->
        OneBillionWord._open_file data_path fs self i
        = Py.open fs (OneBillionWord.partition_path data_path self partition))
  /\ map (OneBillionWord.partition_path "/data"
            (OneBillionWord.Build "heldout" [] ∅ None)) [0; 49; 50; -1]
     = ["/data/1-billion-word/heldout-monolingual.tokenized.shuffled/news.en.heldout-00000-of-00050";
        "/data/1-billion-word/heldout-monolingual.tokenized.shuffled/news.en.heldout-00049-of-00050";
        "/data/1-billion-word/heldout-monolingual.tokenized.shuffled/news.en.heldout-00050-of-00050";
        "/data/1-billion-word/heldout-monolingual.tokenized.shuffled/news.en.heldout--0001-of-00050"]%string
  /\ map (OneBillionWord.partition_path "/data"
            (OneBillionWord.Build "validation" [] ∅ None)) [7]
     = ["/data/1-billion-word/heldout-monolingual.tokenized.shuffled/news.en.heldout-00007-of-00050"]%string
  /\ map (OneBillionWord.partition_path "/data"
            (OneBillionWord.Build "training" [] ∅ None)) [1; 99; 0; 100; 123456]
     = ["/data/1-billion-word/training-monolingual.tokenized.shuffled/news.en-00001-of-00100";
        "/data/1-billion-word/training-monolingual.tokenized.shuffled/news.en-00099-of-00100";
        "/data/1-billion-word/training-monolingual.tokenized.shuffled/news.en-00000-of-00100";
        "/data/1-billion-word/training-monolingual.tokenized.shuffled/news.en-00100-of-00100";
        "/data/1-billion-word/training-monolingual.tokenized.shuffled/news.en-123456-of-00100"]%string.
Proof.
  split; [done|].
  split.
  { intros data_path self partition Hne. unfold OneBillionWord.partition_path.
    apply String.eqb_neq in Hne. by rewrite Hne. }
  split.
  { intros data_path self partition He. unfold OneBillionWord.partition_path.
    apply String.eqb_eq in He. by rewrite He. }
  split.
  { intros data_path fs self i partition Hp.
    unfold OneBillionWord._open_file. by rewrite Hp. }
  repeat split; vm_compute; reflexivity.
Qed.

Lemma OneBillionWord_init_never_fails_witness :
  OneBillionWord.partition_path "/data"
    (OneBillionWord.Build "test" [] ∅ None) 50
  = OneBillionWord.path_join "/data"
      ["1-billion-word"; "heldout-monolingual.tokenized.shuffled";
       "news.en.heldout-" ++ OneBillionWord.format_05d 50
       ++ "-of-00050"]%string
  /\ OneBillionWord._open_file OnePartition.data_path OnePartition.fs
       OnePartition.reader 0
     = Py.open OnePartition.fs
         (OneBillionWord.partition_path OnePartition.data_path
            OnePartition.reader 1).
Proof.
  split.
  - apply (proj1 (proj2 OneBillionWord_init_never_fails)).
    simpl. discriminate.
  - apply (proj1 (proj2 (proj2 (proj2 OneBillionWord_init_never_fails)))).
    reflexivity.
Defined.

(** ** The checkpoint extensions *)

(** C1, as the design document states it, fails: with an earlier
    snapshot at the destination and a [dill.dump] that raises, the call
    leaves neither the complete output of a [dill.dump] that returned nor
    the earlier contents at the destination. *)
Lemma SerializeMainLoop_do_atomic_counterexample :
  ~ (forall (open_wb_error :
               gmap string (list Byte.byte) -> string -> option exn)
            (dill_dump : SaveLoad.main_loop unit
                         -> list Byte.byte * option exn)
            (path callback_name : string) (w : SaveLoad.world unit),
       let w' := snd (SaveLoad.SerializeMainLoop_do open_wb_error dill_dump
                        path callback_name w) in
       let saved :=
         SaveLoad.MainLoop
           (<[SaveLoad.SAVING_DONE_TO := SaveLoad.CStr path]>
              (SaveLoad.current_row (SaveLoad.loop w)))
           (SaveLoad.process (SaveLoad.loop w)) in
       (snd (dill_dump saved) = None
        /\ SaveLoad.disk w' !! path = Some (fst (dill_dump saved)))
       \/ (SaveLoad.disk w' !! path = SaveLoad.disk w !! path
           /\ SaveLoad.current_row (SaveLoad.loop w')
              !! SaveLoad.SAVING_DONE_TO = Some SaveLoad.CNone)).
Proof.
  intros H.
  destruct (H FailedDump.open_wb_error FailedDump.dill_dump FailedDump.path
              "after_training"%string FailedDump.before) as [[Hd _]|[Hd _]].
  - discriminate Hd.
  - vm_compute in Hd. discriminate Hd.
Qed.

(** C1, amended.  [SerializeMainLoop.do] returns normally and changes no
    file but the destination.  When [open(path, "wb")] raises, the
    destination is as it was and [saving_done_to] is [None].  Once the
    destination is open its earlier contents are gone: afterwards it
    holds exactly the bytes that [dill.dump] wrote, with [saving_done_to]
    the path when [dill.dump] returned, and [None] when it raised. *)
Theorem SerializeMainLoop_do_overwrites_destination
    (Process : Type)
    (open_wb_error : gmap string (list Byte.byte) -> string -> option exn)
    (dill_dump : SaveLoad.main_loop Process -> list Byte.byte * option exn)
    (path callback_name : string) (w : SaveLoad.world Process) :
  let saved :=
    SaveLoad.MainLoop
      (<[SaveLoad.SAVING_DONE_TO := SaveLoad.CStr path]>
         (SaveLoad.current_row (SaveLoad.loop w)))
      (SaveLoad.process (SaveLoad.loop w)) in
  exists w',
    SaveLoad.SerializeMainLoop_do open_wb_error dill_dump path callback_name w
    = (Ok tt, w')
    /\ (forall p, p <> path -> SaveLoad.disk w' !! p = SaveLoad.disk w !! p)
    /\ match open_wb_error (SaveLoad.disk w) path with
       | Some _ =>
           SaveLoad.disk w' = SaveLoad.disk w
           /\ SaveLoad.current_row (SaveLoad.loop w')
              !! SaveLoad.SAVING_DONE_TO = Some SaveLoad.CNone
       | None =>
           SaveLoad.disk w' !! path = Some (fst (dill_dump saved))
           /\ SaveLoad.current_row (SaveLoad.loop w')
              !! SaveLoad.SAVING_DONE_TO
              = Some (match snd (dill_dump saved) with
                      | Some _ => SaveLoad.CNone
                      | None => SaveLoad.CStr path
                      end)
       end.
Proof.
  intros saved. subst saved.
  unfold SaveLoad.SerializeMainLoop_do, SaveLoad.try_except, SaveLoad.bind,
    SaveLoad.set_row, SaveLoad.open_and_dump. simpl.
  destruct (open_wb_error (SaveLoad.disk w) path) as [e|]; simpl.
  - eexists. split; [done|]. simpl. split; [done|].
    split; [done|]. by rewrite lookup_insert_eq.
  - destruct (dill_dump _) as [written [e|]]; simpl;
      (eexists; split; [done|]; simpl; split;
       [intros p Hp; by rewrite !lookup_insert_ne|];
       split; by rewrite lookup_insert_eq).
Qed.

(** C7. None of the three extensions lets an exception of the save or
    of the load through: each returns normally, whatever [open],
    [dill.dump] and the manager's [save] and [load_to] do.  The two save
    extensions leave [saving_done_to] at the destination when nothing
    was raised and at [None] when something was.  [before_training]
    sets [loaded_from] to the manager's folder when [load_to] returned;
    when it raised, the extension leaves the main loop as [load_to]
    left it, writes no [loaded_from], and hands the traceback to
    [logger.error]. *)
Theorem extensions_never_raise
    (Process : Type)
    (open_wb_error : gmap string (list Byte.byte) -> string -> option exn)
    (dill_dump : SaveLoad.main_loop Process -> list Byte.byte * option exn)
    (format_exc : exn -> string) :
  (forall path callback_name (w : SaveLoad.world Process),
     let saved :=
       SaveLoad.MainLoop
         (<[SaveLoad.SAVING_DONE_TO := SaveLoad.CStr path]>
            (SaveLoad.current_row (SaveLoad.loop w)))
         (SaveLoad.process (SaveLoad.loop w)) in
     exists w',
       SaveLoad.SerializeMainLoop_do open_wb_error dill_dump path
         callback_name w
       = (Ok tt, w')
       /\ SaveLoad.current_row (SaveLoad.loop w') !! SaveLoad.SAVING_DONE_TO
          = Some (match open_wb_error (SaveLoad.disk w) path,
                        snd (dill_dump saved) with
                  | None, None => SaveLoad.CStr path
                  | _, _ => SaveLoad.CNone
                  end))
  /\ (forall (m : SaveLoad.manager Process) callback_name
             (w : SaveLoad.world Process),
        let saved :=
          SaveLoad.MainLoop
            (<[SaveLoad.SAVING_DONE_TO := SaveLoad.CStr (SaveLoad.folder m)]>
               (SaveLoad.current_row (SaveLoad.loop w)))
            (SaveLoad.process (SaveLoad.loop w)) in
        exists w',
          SaveLoad.SaveTrainingState_do m callback_name w = (Ok tt, w')
          /\ SaveLoad.current_row (SaveLoad.loop w')
             !! SaveLoad.SAVING_DONE_TO
             = Some (match snd (SaveLoad.save m saved (SaveLoad.disk w)) with
                     | None => SaveLoad.CStr (SaveLoad.folder m)
                     | Some _ => SaveLoad.CNone
                     end))
  /\ (forall (m : SaveLoad.manager Process) (w : SaveLoad.world Process),
        let info :=
          ("INFO", "Loading the state from " ++ SaveLoad.folder m
                   ++ " into the main loop")%string in
        let loaded :=
          SaveLoad.load_to m (SaveLoad.disk w) (SaveLoad.loop w) in
        exists w',
          SaveLoad.LoadTrainingState_before_training format_exc m w
          = (Ok tt, w')
          /\ SaveLoad.disk w' = SaveLoad.disk w
          /\ match snd loaded with
             | None =>
                 SaveLoad.loop w'
                 = SaveLoad.MainLoop
                     (<[SaveLoad.LOADED_FROM
                        := SaveLoad.CStr (SaveLoad.folder m)]>
                        (SaveLoad.current_row (fst loaded)))
                     (SaveLoad.process (fst loaded))
                 /\ SaveLoad.logged w' = SaveLoad.logged w ++ [info]
             | Some e =>
                 SaveLoad.loop w' = fst loaded
                 /\ SaveLoad.logged w'
                    = SaveLoad.logged w
                      ++ [info;
                          ("ERROR",
                           "Failed to load the state:"
                           ++ String newline (format_exc e))%string]
             end).
Proof.
  split; [|split].
  - intros path callback_name w saved. subst saved.
    unfold SaveLoad.SerializeMainLoop_do, SaveLoad.try_except, SaveLoad.bind,
      SaveLoad.set_row, SaveLoad.open_and_dump. simpl.
    destruct (open_wb_error (SaveLoad.disk w) path) as [e|]; simpl.
    + eexists. split; [done|]. simpl. by rewrite lookup_insert_eq.
    + destruct (dill_dump _) as [written [e|]]; simpl;
        (eexists; split; [done|]; simpl; by rewrite lookup_insert_eq).
  - intros m callback_name w saved. subst saved.
    unfold SaveLoad.SaveTrainingState_do, SaveLoad.try_except, SaveLoad.bind,
      SaveLoad.set_row, SaveLoad.manager_save. simpl.
    destruct (SaveLoad.save m _ _) as [d [e|]]; simpl;
      (eexists; split; [done|]; simpl; by rewrite lookup_insert_eq).
  - intros m w info loaded. subst info loaded.
    unfold SaveLoad.LoadTrainingState_before_training, SaveLoad.try_except,
      SaveLoad.bind, SaveLoad.set_row, SaveLoad.manager_load_to,
      SaveLoad.log_record. simpl.
    destruct (SaveLoad.load_to m _ _) as [l [e|]]; simpl;
      (eexists; split; [done|]; simpl; split; [done|]; split; [done|]).
    + by rewrite <- app_assoc.
    + done.
Qed.

(** The failing [dill.dump] of [FailedDump], seen from the caller: the
    call returns, the earlier snapshot is gone, the log holds [None]. *)
Example failed_dump_outcome :
  SaveLoad.SerializeMainLoop_do FailedDump.open_wb_error FailedDump.dill_dump
    FailedDump.path "after_training" FailedDump.before
  = (Ok tt,
     SaveLoad.World
       (SaveLoad.MainLoop {[ SaveLoad.SAVING_DONE_TO := SaveLoad.CNone ]} tt)
       {[ FailedDump.path := [] ]} []).
Proof. vm_compute. reflexivity. Qed.

(** ** The loops end

    The count of turns that [get_data] gives its loop is never used up:
    from every state, whatever the files and the dictionary, a call
    returns or raises. *)

Lemma TextFile_read_sentence_ends (fuel : nat) (self : TextFile.t)
    (fs : gmap string string) (st : TextFile.state) :
  (length (TextFile.files self) - TextFile.current_index st < fuel)%nat ->
  is_Some (TextFile.read_sentence fuel self fs st).
Proof.
  revert st. induction fuel as [|fuel IH]; intros st Hfuel; [lia|]. simpl.
  destruct (readline (TextFile.file st)) as [[[|c l] f]|e]; try done.
  destruct (_ =? _); [done|].
  destruct (TextFile._open_file self fs _) as [f'|e] eqn:Ho; [|done].
  apply IH. simpl.
  assert (S (TextFile.current_index st) < length (TextFile.files self))%nat.
  { unfold TextFile._open_file in Ho.
    destruct (TextFile.files self !! _) eqn:Hl; [|done].
    by apply lookup_lt_Some in Hl. }
  lia.
Qed.

(** X2. [TextFile.get_data] ends: from every state, with every disk,
    dictionary and request, it returns or raises within the
    [len(self.files) + 1] turns that its loop is given. *)
Theorem TextFile_get_data_ends (self : TextFile.t) (fs : gmap string string)
    (st : TextFile.state) (request : option Z) :
  exists r st', TextFile.get_data self fs st request = Some (r, st').
Proof.
  unfold TextFile.get_data. destruct request; [by eexists _, _|].
  destruct (TextFile_read_sentence_ends (S (length (TextFile.files self)))
              self fs st) as [[[s|e] st'] ->]; [lia| |]; by eexists _, _.
Qed.

Lemma OneBillionWord_collect_ends (data_path : string)
    (fs : gmap string string) (fuel : nat) (self : OneBillionWord.t)
    (st : OneBillionWord.state) (data : list (list Z)) (request : Z) :
  (Z.to_nat (request - Z.of_nat (length data))
   + (length (OneBillionWord.which_partitions self)
      - OneBillionWord.current_index st) < fuel)%nat ->
  is_Some (OneBillionWord.collect data_path fs fuel self st data request).
Proof.
  revert st data. induction fuel as [|fuel IH]; intros st data Hfuel; [lia|].
  simpl. destruct (Z.ltb_spec (Z.of_nat (length data)) request); [|done].
  destruct (readline (OneBillionWord.file st)) as [[[|c l] f]|e]; try done.
  - destruct (_ =? _); [by destruct data|].
    destruct (OneBillionWord._open_file data_path fs self _) as [f'|e] eqn:Ho;
      [|done].
    apply IH. simpl.
    assert (S (OneBillionWord.current_index st)
            < length (OneBillionWord.which_partitions self))%nat.
    { unfold OneBillionWord._open_file in Ho.
      destruct (OneBillionWord.which_partitions self !! _) eqn:Hl; [|done].
      by apply lookup_lt_Some in Hl. }
    lia.
  - destruct (OneBillionWord.numberize self _); [|done].
    apply IH. rewrite length_app. simpl. lia.
Qed.

(** X3. [OneBillionWord.get_data] ends: from every state, with every
    disk, dictionary and request, it returns or raises within the
    [max(request, 0) + len(self.which_partitions) + 1] turns that its
    loop is given. *)
Theorem OneBillionWord_get_data_ends (data_path : string)
    (fs : gmap string string) (self : OneBillionWord.t)
    (st : OneBillionWord.state) (request : Z) :
  exists r st',
    OneBillionWord.get_data data_path fs self st request = Some (r, st').
Proof.
  unfold OneBillionWord.get_data.
  destruct (OneBillionWord_collect_ends data_path fs
              (S (Z.to_nat request
                  + length (OneBillionWord.which_partitions self)))
              self st [] request) as [[r st'] ->]; [simpl; lia|].
  by eexists _, _.
Qed.

(** * Further properties of the two files *)

(** ** How [TextFile.get_data] can fail *)

Lemma open_ok (fs : gmap string string) (path : string) (f : Py.file) :
  Py.open fs path = Ok f ->
  exists text, fs !! path = Some text /\ f = File text false.
Proof.
  unfold Py.open. destruct (fs !! path) as [text|]; [|done].
  intros [= <-]. by exists text.
Qed.

Lemma open_missing (fs : gmap string string) (path : string) (e : exn) :
  Py.open fs path = Raise e -> e = IOError path /\ fs !! path = None.
Proof. unfold Py.open. destruct (fs !! path); [done|]. by intros [= <-]. Qed.

(** A [KeyError] of [numberize] names a token that the dictionary
    lacks. *)
Lemma TextFile_numberize_key_error (self : TextFile.t) (sentence : string)
    (e : exn) :
  TextFile.numberize self sentence = Raise e ->
  exists k, e = KeyError k /\ TextFile.dictionary self !! k = None.
Proof.
  assert (forall (d : gmap string Z) k e',
            (v ← getitem d k; Ok [v]) = Raise e' ->
            e' = KeyError k /\ d !! k = None) as Hone.
  { intros d k e'. unfold getitem. destruct (d !! k); [done|].
    by intros [= <-]. }
  assert (forall (d : gmap string Z) (t : option string) e',
            (if truthy t then v ← getitem d (default EmptyString t); Ok [v]
             else Ok []) = Raise e' ->
            exists k, e' = KeyError k /\ d !! k = None) as Hm.
  { intros d t e'. destruct (truthy t); [|done].
    intros H%Hone. by eexists. }
  unfold TextFile.numberize.
  match goal with
  | |- (?b ≫= _) = _ -> _ => destruct b as [bs|eb] eqn:Eb
  end; simpl.
  2:{ intros [= <-]. by apply Hm in Eb. }
  match goal with |- context [mapM ?f ?l] => destruct (mapM f l) eqn:Ew end;
    simpl.
  2:{ intros [= <-]. pose proof (words_raise _ _ _ _ Ew) as ->.
      eexists. split; [done|].
      destruct (TextFile.dictionary self !! TextFile.unk_token self) eqn:Hu;
        [|done].
      rewrite words_ok in Ew by (by eexists). done. }
  match goal with
  | |- (?z ≫= _) = _ -> _ => destruct z as [zs|ez] eqn:Ez
  end; simpl; [done|].
  intros [= <-]. by apply Hm in Ez.
Qed.

(** What the loop of [get_data] leaves, from any state whatever. *)
Lemma TextFile_read_sentence_outcome (fuel : nat) (self : TextFile.t)
    (fs : gmap string string) (st st' : TextFile.state)
    (r : result string) :
  TextFile.read_sentence fuel self fs st = Some (r, st') ->
  (TextFile.current_index st <= TextFile.current_index st')%nat
  /\ ((TextFile.current_index st < length (TextFile.files self))%nat ->
      (TextFile.current_index st' < length (TextFile.files self))%nat)
  /\ match r with
     | Ok s =>
         s <> EmptyString /\ closed (TextFile.file st) = false
         /\ closed (TextFile.file st') = false
     | Raise e =>
         (e = ValueError closed_file_msg
          /\ closed (TextFile.file st) = true /\ st' = st)
         \/ (closed (TextFile.file st) = false
             /\ closed (TextFile.file st') = true
             /\ ((e = StopIteration
                  /\ S (TextFile.current_index st')
                     = length (TextFile.files self))
                 \/ (exists p,
                       e = IOError p
                       /\ TextFile.files self !! TextFile.current_index st'
                          = Some p
                       /\ fs !! p = None)
                 \/ (e = IndexError
                     /\ (length (TextFile.files self)
                         <= TextFile.current_index st')%nat
                     /\ (length (TextFile.files self)
                         <= TextFile.current_index st)%nat)))
     end.
Proof.
  revert st. induction fuel as [|fuel IH]; intros [i [text cl]]; simpl;
    [done|].
  unfold readline. simpl. destruct cl.
  { intros [= <- <-]. split; [done|]. split; [done|]. by left. }
  destruct (next_line text) as [[|c l] rest'] eqn:Hn.
  - destruct (Z.eqb_spec (Z.of_nat i)
                (Z.of_nat (length (TextFile.files self)) - 1)) as [Hlast|Hlast].
    + intros [= <- <-]. simpl. split; [done|]. split; [done|].
      right. split; [done|]. split; [done|]. left. split; [done|]. lia.
    + unfold TextFile._open_file.
      destruct (TextFile.files self !! S i) as [p|] eqn:Hp.
      * destruct (Py.open fs p) as [f'|e] eqn:Ho.
        -- apply open_ok in Ho as (text' & _ & ->).
           intros H. apply IH in H. simpl in H.
           destruct H as (Hle & Hlt & Hr).
           split; [lia|]. split.
           { intros _. apply Hlt. by apply lookup_lt_Some in Hp. }
           destruct r as [s|e]; [by destruct Hr as (? & _ & ?)|].
           destruct Hr as [(_ & [=] & _)|(_ & Hc & Hr)].
           right. split; [done|]. split; [done|].
           destruct Hr as [?|[?|(? & ? & ?)]]; [by left | right; by left|].
           apply lookup_lt_Some in Hp. lia.
        -- apply open_missing in Ho as [-> Hnone]. intros [= <- <-]. simpl.
           split; [lia|]. split.
           { intros _. by apply lookup_lt_Some in Hp. }
           right. split; [done|]. split; [done|]. right. left.
           by exists p.
      * intros [= <- <-]. simpl. apply lookup_ge_None in Hp.
        split; [lia|]. split; [lia|].
        right. split; [done|]. split; [done|]. right. right.
        split; [done|]. lia.
  - intros [= <- <-]. simpl. done.
Qed.



(** X5. What [TextFile.get_data] keeps of a state, whatever the state,
    the disk and the outcome: [current_index] never goes down; an index
    inside the list of files stays inside it, and then no [IndexError]
    is raised; and a call that returns a sentence found the file open
    and leaves it open. *)
Theorem TextFile_get_data_keeps_state_valid (self : TextFile.t)
    (fs : gmap string string) (st st' : TextFile.state)
    (request : option Z) (r : result (list Z)) :
  TextFile.get_data self fs st request = Some (r, st') ->
  (TextFile.current_index st <= TextFile.current_index st')%nat
  /\ ((TextFile.current_index st < length (TextFile.files self))%nat ->
      (TextFile.current_index st' < length (TextFile.files self))%nat
      /\ r <> Raise IndexError)
  /\ (forall s, r = Ok s ->
        closed (TextFile.file st) = false
        /\ closed (TextFile.file st') = false).
Proof.
  unfold TextFile.get_data. destruct request as [z|].
  { intros [= <- <-]. split; [done|]. split; done. }
  destruct (TextFile.read_sentence _ self fs st) as [[[s|e1] st1]|] eqn:Hr;
    [| |done];
    apply TextFile_read_sentence_outcome in Hr as (Hle & Hlt & Hr).
  - intros [= <- <-]. split; [done|]. split.
    + intros Hi. split; [by apply Hlt|].
      intros H. by apply TextFile_numberize_key_error in H as (k & [=] & _).
    + intros _ _. by destruct Hr as (_ & ? & ?).
  - intros [= <- <-]. split; [done|]. split; [|done].
    intros Hi. split; [by apply Hlt|].
    intros [= ->].
    destruct Hr as [([=] & _)|(_ & _ & [([=] & _)|[(? & [=] & _)|(_ & _ & ?)]])].
    lia.
Qed.

Lemma TextFile_get_data_keeps_state_valid_witness :
  (0 <= 0)%nat
  /\ ((0 < 1)%nat ->
      (0 < 1)%nat /\ Ok [2; 0; 3; 0; 1] <> @Raise (list Z) IndexError)
  /\ (forall s, Ok [2; 0; 3; 0; 1] = Ok s ->
        closed (TextFile.file DocExample.opened) = false
        /\ closed (File "This another one" false) = false).
Proof.
  apply (TextFile_get_data_keeps_state_valid DocExample.reader DocExample.fs
           DocExample.opened
           (TextFile.State 0 (File "This another one" false)) None
           (Ok [2; 0; 3; 0; 1])).
  vm_compute. reflexivity.
Defined.

(** ** The numbers that [TextFile.get_data] returns *)




Lemma split_blank (s : string) : blank s = true -> split s = [].
Proof.
  unfold split. induction s as [|c s IH]; simpl; [done|].
  destruct (is_space c); [apply IH | done].
Qed.

(** X7. A line without a word is not passed over.  A reader that
    [__init__] returned, on a state whose first pending line is blank
    once preprocessed (the line feed alone, or white space only),
    returns for it the sequence of the BOS and EOS numbers alone, and
    goes on to the lines after it. *)
Theorem TextFile_blank_line_not_skipped
    (files : list string) (dictionary : gmap string Z)
    (bos eos : option string) (unk level : string)
    (preprocess : option (string -> string))
    (self : TextFile.t) (fs : gmap string string) (st : TextFile.state)
    (l : string) (ls : list string) :
  TextFile.init files dictionary bos eos unk level preprocess = Ok self ->
  Forall (fun p => is_Some (fs !! p)) files ->
  TextFile.reading self st ->
  TextFile.pending self fs st = l :: ls ->
  blank (match preprocess with Some p => p l | None => l end) = true ->
  exists st',
    TextFile.get_data self fs st None
    = Some (Ok (TextFile.marker dictionary bos
                ++ TextFile.marker dictionary eos), st')
    /\ TextFile.reading self st'
    /\ TextFile.pending self fs st' = ls.
Proof.
  intros Hinit Hfiles Hr Hp Hblank.
  destruct (TextFile_init_configured _ _ _ _ _ _ _ _ Hinit) as [Hc Hself].
  assert (Forall (fun p => is_Some (fs !! p)) (TextFile.files self)) as Hex
    by (by rewrite Hself).
  pose proof (TextFile_get_data_spec self fs Hex st Hr) as H.
  rewrite Hp in H. destruct H as (st' & Hg & Hr' & Hp').
  exists st'. split; [|done].
  rewrite Hg, TextFile_numberize_configured by done.
  subst self. unfold TextFile.tokenize. simpl.
  by rewrite (split_blank _ Hblank).
Qed.

Lemma TextFile_blank_line_not_skipped_witness :
  exists st',
    TextFile.get_data BlankLine.reader BlankLine.fs BlankLine.opened None
    = Some (Ok (TextFile.marker ThreeFiles.vocabulary TextFile.default_bos
                ++ TextFile.marker ThreeFiles.vocabulary
                     TextFile.default_eos), st')
    /\ TextFile.reading BlankLine.reader st'
    /\ TextFile.pending BlankLine.reader BlankLine.fs st'
       = [("hello" ++ String newline "")%string].
Proof.
  apply (TextFile_blank_line_not_skipped ["s.txt"%string]
           ThreeFiles.vocabulary TextFile.default_bos TextFile.default_eos
           TextFile.default_unk TextFile.default_level None
           BlankLine.reader BlankLine.fs BlankLine.opened
           (String newline EmptyString)).
  - vm_compute. reflexivity.
  - repeat (constructor; [eexists; vm_compute; reflexivity|]). constructor.
  - split; [reflexivity | simpl; lia].
  - vm_compute. reflexivity.
  - vm_compute. reflexivity.
Defined.

(** The blank first line read: the two markers, then the sentence. *)
Example blank_line_reads :
  TextFile.reads 3 BlankLine.reader BlankLine.fs BlankLine.opened
  = [Some (Ok [1; 2]); Some (Ok [1; 3; 2]); Some (Raise StopIteration)].
Proof. vm_compute. reflexivity. Qed.

(** ** [OneBillionWord.get_data] beside [TextFile.get_data] *)

Section OneBillionWordAsTextFile.

Variable data_path : string.
Variable fs : gmap string string.
Variable self : OneBillionWord.t.

Local Abbreviation text_file := (as_text_file data_path self).

(** Lines 191 to 193 of [OneBillionWord.get_data] compute what lines 103
    to 106 of [TextFile.get_data] compute with the default tokens. *)
Lemma OneBillionWord_numberize_as_text_file (sentence : string) :
  as_batch (TextFile.numberize text_file sentence)
  = match OneBillionWord.numberize self sentence with
    | Ok s => Ok [s]
    | Raise e => Raise e
    end.
Proof.
  unfold TextFile.numberize, OneBillionWord.numberize, as_text_file,
    TextFile.default_bos, TextFile.default_eos, TextFile.default_unk.
  simpl.
  destruct (getitem (OneBillionWord.dictionary self) "<S>") as [b|]; simpl;
    [|done].
  match goal with |- context [mapM ?f ?l] => destruct (mapM f l) end; simpl;
    [|done].
  by destruct (getitem (OneBillionWord.dictionary self) "</S>").
Qed.

Lemma OneBillionWord_open_file_as_text_file (i : nat) :
  TextFile._open_file text_file fs i
  = OneBillionWord._open_file data_path fs self i.
Proof.
  unfold TextFile._open_file, OneBillionWord._open_file. simpl.
  rewrite list_lookup_fmap.
  by destruct (OneBillionWord.which_partitions self !! i).
Qed.

(** The loop that collects one sentence takes the turns of the loop of
    [TextFile.get_data], and one more to see that it has enough. *)
Lemma OneBillionWord_collect_one (fuel : nat) (st : OneBillionWord.state) :
  match TextFile.read_sentence fuel text_file fs (as_text_state st) with
  | None => True
  | Some (Raise e, st') =>
      OneBillionWord.collect data_path fs (S fuel) self st [] 1
      = Some (Raise e, of_text_state st')
  | Some (Ok sentence, st') =>
      OneBillionWord.collect data_path fs (S fuel) self st [] 1
      = Some (as_batch (TextFile.numberize text_file sentence),
              of_text_state st')
  end.
Proof.
  revert st. induction fuel as [|fuel IH]; intros [i f]; [done|].
  cbn [TextFile.read_sentence OneBillionWord.collect as_text_state
       TextFile.file TextFile.current_index OneBillionWord.file
       OneBillionWord.current_index length].
  change (Z.of_nat 0 <? 1) with true. cbv iota.
  destruct (readline f) as [[[|c l] f']|e]; [| |done].
  - assert (length (TextFile.files text_file)
            = length (OneBillionWord.which_partitions self)) as ->
      by (simpl; apply length_map).
    destruct (_ =? _); [done|].
    rewrite OneBillionWord_open_file_as_text_file.
    destruct (OneBillionWord._open_file data_path fs self (S i)) as [f''|e];
      [|done].
    apply (IH (OneBillionWord.State (S i) f'')).
  - rewrite OneBillionWord_numberize_as_text_file.
    destruct (OneBillionWord.numberize self (String c l)) as [s|e]; [|done].
    by destruct fuel.
Qed.

End OneBillionWordAsTextFile.

(** X8. [OneBillionWord.get_data(state, 1)] is
    [TextFile.get_data(state, None)] of the [TextFile] over the files of
    the selected partitions with the default tokens and no
    preprocessing: from every state, with every disk and dictionary,
    the two raise the same exception or return the same sentence (the
    one as a batch of one), and leave the same index and file. *)
Theorem OneBillionWord_request_one_is_TextFile
    (data_path : string) (fs : gmap string string) (self : OneBillionWord.t)
    (st : OneBillionWord.state) :
  OneBillionWord.get_data data_path fs self st 1
  = match TextFile.get_data (as_text_file data_path self) fs
            (as_text_state st) None with
    | Some (r, st') => Some (as_batch r, of_text_state st')
    | None => None
    end.
Proof.
  unfold OneBillionWord.get_data, TextFile.get_data.
  assert (length (TextFile.files (as_text_file data_path self))
          = length (OneBillionWord.which_partitions self)) as Hlen
    by (simpl; apply length_map).
  rewrite Hlen.
  pose proof (OneBillionWord_collect_one data_path fs self
                (S (length (OneBillionWord.which_partitions self))) st) as H.
  destruct (TextFile_read_sentence_ends
              (S (length (OneBillionWord.which_partitions self)))
              (as_text_file data_path self) fs (as_text_state st))
    as [[r st'] Hr]; [rewrite Hlen; lia|].
  rewrite Hr in H |- *.
  change (Z.to_nat 1) with 1%nat. simpl Nat.add.
  by destruct r as [sentence|e].
Qed.

(** ** Batches of [OneBillionWord.get_data] *)

Section OneBillionWordBatches.

Variable data_path : string.
Variable fs : gmap string string.
Variable self : OneBillionWord.t.

Local Abbreviation parts := (OneBillionWord.which_partitions self).
Local Abbreviation pending := (OneBillionWord.pending data_path fs self).
Local Abbreviation reading := (OneBillionWord.reading self).
Local Abbreviation raw :=
  (OneBillionWord.raw_sequence (OneBillionWord.dictionary self)).

Hypothesis files_exist :
  Forall (fun p => is_Some
                     (fs !! OneBillionWord.partition_path data_path self p))
    parts.

Lemma OneBillionWord_batches_S (k : nat) (st : OneBillionWord.state)
    (request : Z) :
  OneBillionWord.batches data_path fs (S k) self st request
  = match OneBillionWord.get_data data_path fs self st request with
    | None => [None]
    | Some (r, st') =>
        Some r :: OneBillionWord.batches data_path fs k self st' request
    end.
Proof. reflexivity. Qed.

Lemma OneBillionWord_batches_blocks (k : nat) (st : OneBillionWord.state)
    (request : Z) :
  OneBillionWord.complete (OneBillionWord.dictionary self) ->
  reading st ->
  (k * Z.to_nat request <= length (pending st))%nat ->
  OneBillionWord.batches data_path fs k self st request
  = map (fun i => Some (Ok (map raw (take (Z.to_nat request)
                                       (drop (i * Z.to_nat request)
                                          (pending st))))))
      (seq 0 k).
Proof.
  intros Hd. revert st. induction k as [|k IH]; intros st Hr Hk; [done|].
  rewrite OneBillionWord_batches_S.
  destruct (OneBillionWord_get_data_spec data_path fs self files_exist Hd st
              request Hr) as [Henough _].
  destruct Henough as (st' & -> & Hr' & Hp); [lia|].
  rewrite IH; [|done|rewrite Hp, length_drop; lia].
  rewrite <- cons_seq, <- fmap_S_seq. simpl. f_equal.
  rewrite <- list_fmap_compose. apply list_fmap_ext. intros _ i _. simpl.
  rewrite Hp, drop_drop. done.
Qed.

(** The first pending line raises in [numberize]: the call raises the
    same, and the line is consumed. *)
Lemma OneBillionWord_collect_first_line_raises (fuel : nat)
    (st : OneBillionWord.state) (data : list (list Z)) (request : Z)
    (l : string) (ls : list string) (e : exn) :
  reading st ->
  pending st = l :: ls ->
  Z.of_nat (length data) < request ->
  OneBillionWord.numberize self l = Raise e ->
  (length parts - OneBillionWord.current_index st <= fuel)%nat ->
  exists st',
    OneBillionWord.collect data_path fs fuel self st data request
    = Some (Raise e, st')
    /\ reading st' /\ pending st' = ls.
Proof.
  intros Hr Hp Hlt Hn. revert st Hr Hp.
  induction fuel as [|fuel IH]; intros [i [text cl]] [Hcl Hi] Hp Hfuel;
    simpl in *; [lia|]. subst cl.
  destruct (Z.ltb_spec (Z.of_nat (length data)) request); [|lia].
  unfold OneBillionWord.pending in Hp. simpl in Hp.
  unfold readline. simpl.
  destruct text as [|c text].
  - simpl in *.
    destruct (Z.eqb_spec (Z.of_nat i) (Z.of_nat (length parts) - 1))
      as [Hlast|Hlast].
    { rewrite drop_ge in Hp by lia. done. }
    destruct (OneBillionWord_open_file_ok data_path fs self files_exist (S i))
      as (text' & Ho & Hl); [lia|].
    rewrite Ho. apply IH; [split; simpl; [done|lia] | | simpl; lia].
    unfold OneBillionWord.pending. simpl. by rewrite Hl.
  - destruct (next_line_lines c text) as (l' & r & Hnl & Hl).
    rewrite Hl in Hp. simpl in Hp. injection Hp as <- <-.
    rewrite Hnl, Hn. eexists. split; [done|]. by split.
Qed.

End OneBillionWordBatches.

(** X9. Batches come in order and without gaps.  For a reader over
    partitions that exist, with the three tokens in its dictionary, from
    a reading state and for a request of [n] sentences: as long as
    [k * n] lines are pending, [k] successive [get_data(state, n)] calls
    return the first [n] pending lines, then the next [n], and so on,
    each line as the numbers of its raw words. *)
Theorem OneBillionWord_batches_in_order
    (data_path : string) (fs : gmap string string) (self : OneBillionWord.t)
    (st : OneBillionWord.state) (request : Z) (k : nat) :
  Forall (fun p => is_Some
                     (fs !! OneBillionWord.partition_path data_path self p))
    (OneBillionWord.which_partitions self) ->
  OneBillionWord.complete (OneBillionWord.dictionary self) ->
  OneBillionWord.reading self st ->
  (k * Z.to_nat request
   <= length (OneBillionWord.pending data_path fs self st))%nat ->
  OneBillionWord.batches data_path fs k self st request
  = map (fun i =>
           Some (Ok (map (OneBillionWord.raw_sequence
                            (OneBillionWord.dictionary self))
                       (take (Z.to_nat request)
                          (drop (i * Z.to_nat request)
                             (OneBillionWord.pending data_path fs self
                                st))))))
      (seq 0 k).
Proof.
  intros Hfiles Hd Hr Hk. by apply OneBillionWord_batches_blocks.
Qed.

Lemma OneBillionWord_batches_in_order_witness :
  OneBillionWord.batches TwoPartitions.data_path TwoPartitions.fs 2
    TwoPartitions.reader TwoPartitions.opened 2
  = map (fun i =>
           Some (Ok (map (OneBillionWord.raw_sequence
                            (OneBillionWord.dictionary TwoPartitions.reader))
                       (take (Z.to_nat 2)
                          (drop (i * Z.to_nat 2)
                             (OneBillionWord.pending TwoPartitions.data_path
                                TwoPartitions.fs TwoPartitions.reader
                                TwoPartitions.opened))))))
      (seq 0 2).
Proof.
  apply OneBillionWord_batches_in_order.
  - repeat (constructor; [eexists; vm_compute; reflexivity|]). constructor.
  - repeat split; eexists; vm_compute; reflexivity.
  - split; [reflexivity | simpl; lia].
  - vm_compute. lia.
Defined.

(** The four sentences of [TwoPartitions] in batches of two, the second
    batch reaching into the second partition. *)
Example two_partitions_batches :
  OneBillionWord.batches TwoPartitions.data_path TwoPartitions.fs 3
    TwoPartitions.reader TwoPartitions.opened 2
  = [Some (Ok [[0; 3; 2; 1]; [0; 3; 1]]);
     Some (Ok [[0; 2; 1]; [0; 2; 3; 1]]);
     Some (Raise StopIteration)].
Proof. vm_compute. reflexivity. Qed.

(** X10. What [OneBillionWord.get_data] returns, from every state and
    with every disk, dictionary and request: a batch never holds more
    sequences than were asked for, and each of them starts with the
    number of ['<S>'] and ends with the number of ['</S>'].  Asked for
    no sentence, or for a negative number of them, the call returns the
    empty batch and leaves the state alone, be its file closed or
    exhausted. *)
Theorem OneBillionWord_batch_bounded_and_wrapped :
  (forall data_path fs self st request batch st',
     OneBillionWord.get_data data_path fs self st request
     = Some (Ok batch, st') ->
     (length batch <= Z.to_nat request)%nat
     /\ Forall (fun s =>
                  exists ws,
                    s = (OneBillionWord.dictionary self !!! "<S>"%string)
                        :: ws
                        ++ [OneBillionWord.dictionary self
                            !!! "</S>"%string])
          batch)
  /\ (forall data_path fs self st request,
        request <= 0 ->
        OneBillionWord.get_data data_path fs self st request
        = Some (Ok [], st)).
Proof.
  split.
  - intros data_path fs self st request batch st' H.
    apply OneBillionWord_collect_ok in H. simpl in H.
    rewrite Z.sub_0_r in H. subst batch. split.
    + rewrite length_map, length_take. lia.
    + apply Forall_map, Forall_forall. intros l _. by eexists.
  - intros data_path fs self st request Hle.
    unfold OneBillionWord.get_data. cbn [OneBillionWord.collect].
    destruct (Z.ltb_spec (Z.of_nat (length (@nil (list Z)))) request)
      as [Hlt|_]; [simpl in Hlt; lia | done].
Qed.

Lemma OneBillionWord_batch_bounded_and_wrapped_witness :
  (length [[0; 3; 2; 1]; [0; 3; 1]] <= Z.to_nat 2)%nat
  /\ OneBillionWord.get_data OnePartition.data_path OnePartition.fs
       OnePartition.reader OnePartition.drained 0
     = Some (Ok [], OnePartition.drained).
Proof.
  split.
  - apply (proj1 OneBillionWord_batch_bounded_and_wrapped
             TwoPartitions.data_path TwoPartitions.fs TwoPartitions.reader
             TwoPartitions.opened 2 [[0; 3; 2; 1]; [0; 3; 1]]
             (OneBillionWord.State 0
                (File ("b" ++ String newline "") false))).
    vm_compute. reflexivity.
  - apply (proj2 OneBillionWord_batch_bounded_and_wrapped). lia.
Defined.

(** ** How [OneBillionWord.get_data] can fail *)

Lemma words_missing (d : gmap string Z) (unk w : string) (ws : list string) :
  d !! unk = None ->
  mapM (fun word => u ← getitem d unk; Ok (default u (d !! word))) (w :: ws)
  = Raise (KeyError unk).
Proof.
  intros Hu. rewrite mapM_result_cons. unfold getitem. by rewrite Hu.
Qed.

(** X11. [OneBillionWord] meets a missing token at read time only.  For
    a reader over partitions that exist, from a reading state with a
    pending line and for a request of at least one sentence, the call
    raises [KeyError] for the first token that lines 191 to 193 look up
    in vain: ['<S>']; else ['<UNK>'], as soon as the line has a word,
    be the word in the dictionary or not; else ['</S>'].  The line is
    consumed all the same, and the state goes on reading after it. *)
Theorem OneBillionWord_missing_token_raises_on_read
    (data_path : string) (fs : gmap string string) (self : OneBillionWord.t)
    (st : OneBillionWord.state) (request : Z)
    (l : string) (ls : list string) (k : string) :
  Forall (fun p => is_Some
                     (fs !! OneBillionWord.partition_path data_path self p))
    (OneBillionWord.which_partitions self) ->
  OneBillionWord.reading self st ->
  OneBillionWord.pending data_path fs self st = l :: ls ->
  0 < request ->
  (OneBillionWord.dictionary self !! "<S>"%string = None
   /\ k = "<S>"%string)
  \/ (is_Some (OneBillionWord.dictionary self !! "<S>"%string)
      /\ split l <> []
      /\ OneBillionWord.dictionary self !! "<UNK>"%string = None
      /\ k = "<UNK>"%string)
  \/ (is_Some (OneBillionWord.dictionary self !! "<S>"%string)
      /\ (split l = []
          \/ is_Some (OneBillionWord.dictionary self !! "<UNK>"%string))
      /\ OneBillionWord.dictionary self !! "</S>"%string = None
      /\ k = "</S>"%string) ->
  exists st',
    OneBillionWord.get_data data_path fs self st request
    = Some (Raise (KeyError k), st')
    /\ OneBillionWord.reading self st'
    /\ OneBillionWord.pending data_path fs self st' = ls.
Proof.
  intros Hfiles Hr Hp Hreq Hk.
  apply (OneBillionWord_collect_first_line_raises data_path fs self Hfiles
           _ st [] request l ls); try done; [|lia].
  unfold OneBillionWord.numberize.
  destruct Hk as [(Hb & ->)|[(Hb & Hw & Hu & ->)|(Hb & Hw & He & ->)]].
  - unfold getitem. by rewrite Hb.
  - rewrite (getitem_total _ "<S>" Hb).
    destruct (split l) as [|w ws]; [done|].
    by rewrite (words_missing _ _ _ _ Hu).
  - rewrite (getitem_total _ "<S>" Hb).
    assert (exists r,
              mapM (fun word =>
                      u ← getitem (OneBillionWord.dictionary self) "<UNK>";
                      Ok (default u (OneBillionWord.dictionary self !! word)))
                (split l) = Ok r) as [r ->].
    { destruct Hw as [-> | Hu]; [by eexists|].
      rewrite words_ok by done. by eexists. }
    simpl. unfold getitem. by rewrite He.
Qed.

Lemma OneBillionWord_missing_token_raises_on_read_witness :
  exists st',
    OneBillionWord.get_data OnePartition.data_path OnePartition.fs
      (OneBillionWord.Build "training" [1] {[ "a"%string := 3 ]} None)
      OnePartition.opened 5
    = Some (Raise (KeyError "<S>"), st')
    /\ OneBillionWord.reading
         (OneBillionWord.Build "training" [1] {[ "a"%string := 3 ]} None) st'
    /\ OneBillionWord.pending OnePartition.data_path OnePartition.fs
         (OneBillionWord.Build "training" [1] {[ "a"%string := 3 ]} None) st'
       = [].
Proof.
  apply (OneBillionWord_missing_token_raises_on_read OnePartition.data_path
           OnePartition.fs
           (OneBillionWord.Build "training" [1] {[ "a"%string := 3 ]} None)
           OnePartition.opened 5 OnePartition.text [] "<S>").
  - repeat (constructor; [eexists; vm_compute; reflexivity|]). constructor.
  - split; [reflexivity | simpl; lia].
  - vm_compute. reflexivity.
  - lia.
  - left. split; [vm_compute|]; reflexivity.
Defined.

(** With ['<S>'] and ['</S>'] but without ['<UNK>'], a line whose only
    word is in the dictionary raises [KeyError('<UNK>')]. *)
Example unknown_token_looked_up_for_known_word :
  OneBillionWord.get_data OnePartition.data_path
    {[ OnePartition.path := ("a" ++ String newline "")%string ]}
    (OneBillionWord.Build "training" [1]
       (<["<S>"%string := 0]> (<["</S>"%string := 1]> {[ "a"%string := 3 ]}))
       None)
    (OneBillionWord.State 0 (File ("a" ++ String newline "") false)) 1
  = Some (Raise (KeyError "<UNK>"),
          OneBillionWord.State 0 (File EmptyString false)).
Proof. vm_compute. reflexivity. Qed.

Lemma bind_raise {A B} (m : result A) (f : A -> result B) (e : exn) :
  m ≫= f = Raise e -> m = Raise e \/ exists a, m = Ok a /\ f a = Raise e.
Proof.
  destruct m as [a|e']; intros H; [right; by exists a|].
  left. change (@Raise B e' = Raise e) in H. by injection H as ->.
Qed.

Lemma getitem_raise (d : gmap string Z) (k : string) (e : exn) :
  getitem d k = Raise e -> e = KeyError k /\ d !! k = None.
Proof. unfold getitem. destruct (d !! k); [done|]. by intros [= <-]. Qed.

Lemma words_key_error (d : gmap string Z) (unk : string) (ws : list string)
    (e : exn) :
  mapM (fun word => u ← getitem d unk; Ok (default u (d !! word))) ws
  = Raise e -> e = KeyError unk /\ d !! unk = None.
Proof.
  intros H. split; [by eapply words_raise|].
  destruct (d !! unk) eqn:Hu; [|done].
  rewrite words_ok in H by (by eexists). done.
Qed.

Lemma OneBillionWord_numberize_key_error (self : OneBillionWord.t)
    (sentence : string) (e : exn) :
  OneBillionWord.numberize self sentence = Raise e ->
  exists k, e = KeyError k /\ OneBillionWord.dictionary self !! k = None.
Proof.
  unfold OneBillionWord.numberize.
  intros [H|(b & _ & [H|(ws & _ & [H|(z & _ & H)]%bind_raise)]%bind_raise)]
    %bind_raise.
  - apply getitem_raise in H. by eexists.
  - apply words_key_error in H. by eexists.
  - apply getitem_raise in H. by eexists.
  - done.
Qed.

(** What the loop of [OneBillionWord.get_data] leaves, from any state
    whatever. *)
Lemma OneBillionWord_collect_outcome (data_path : string)
    (fs : gmap string string) (fuel : nat) (self : OneBillionWord.t)
    (st st' : OneBillionWord.state) (data : list (list Z)) (request : Z)
    (r : result (list (list Z))) :
  let len := length (OneBillionWord.which_partitions self) in
  OneBillionWord.collect data_path fs fuel self st data request
  = Some (r, st') ->
  (OneBillionWord.current_index st <= OneBillionWord.current_index st')%nat
  /\ ((OneBillionWord.current_index st < len)%nat ->
      (OneBillionWord.current_index st' < len)%nat)
  /\ match r with
     | Ok batch =>
         closed (OneBillionWord.file st) = false ->
         closed (OneBillionWord.file st') = true ->
         batch <> [] /\ Z.of_nat (length batch) < request
         /\ S (OneBillionWord.current_index st') = len
     | Raise e =>
         (e = ValueError closed_file_msg
          /\ closed (OneBillionWord.file st) = true /\ st' = st)
         \/ (closed (OneBillionWord.file st) = false
             /\ closed (OneBillionWord.file st') = true
             /\ ((e = StopIteration /\ data = []
                  /\ S (OneBillionWord.current_index st') = len)
                 \/ (exists p,
                       e = IOError
                             (OneBillionWord.partition_path data_path self p)
                       /\ OneBillionWord.which_partitions self
                          !! OneBillionWord.current_index st' = Some p
                       /\ fs !! OneBillionWord.partition_path data_path self p
                          = None)
                 \/ (e = IndexError
                     /\ (len <= OneBillionWord.current_index st)%nat)))
         \/ (closed (OneBillionWord.file st) = false
             /\ closed (OneBillionWord.file st') = false
             /\ exists k, e = KeyError k
                          /\ OneBillionWord.dictionary self !! k = None)
     end.
Proof.
  intros len. subst len.
  revert st data. induction fuel as [|fuel IH]; intros [i [text cl]] data;
    simpl; [done|].
  destruct (Z.ltb_spec (Z.of_nat (length data)) request) as [Hlt|Hge].
  2:{ intros [= <- <-]. simpl. split; [done|]. split; [done|].
      intros Ho Hc. congruence. }
  unfold readline. simpl. destruct cl.
  { intros [= <- <-]. split; [done|]. split; [done|]. by left. }
  destruct (next_line text) as [[|c l] rest'] eqn:Hn.
  - destruct (Z.eqb_spec (Z.of_nat i)
                (Z.of_nat (length (OneBillionWord.which_partitions self)) - 1))
      as [Hlast|Hlast].
    + destruct data as [|s data].
      * intros [= <- <-]. simpl. split; [done|]. split; [done|].
        right. left. split; [done|]. split; [done|]. left.
        split; [done|]. split; [done|]. lia.
      * intros [= <- <-]. simpl. split; [done|]. split; [done|].
        intros _ _. split; [done|]. split; [simpl in *; lia|]. lia.
    + unfold OneBillionWord._open_file.
      destruct (OneBillionWord.which_partitions self !! S i) as [p|] eqn:Hp.
      * destruct (Py.open fs _) as [f'|e] eqn:Ho.
        -- apply open_ok in Ho as (text' & _ & ->).
           intros H. apply IH in H. simpl in H.
           destruct H as (Hle & Hlt' & Hr).
           split; [lia|]. split.
           { intros _. apply Hlt'. by apply lookup_lt_Some in Hp. }
           destruct r as [batch|e]; [intros _; by apply Hr|].
           destruct Hr as [(_ & [=] & _)|[(_ & Hc & Hr)|(_ & Hc & Hr)]].
           ++ right. left. split; [done|]. split; [done|].
              destruct Hr as [?|[?|(? & ?)]]; [by left | right; by left|].
              apply lookup_lt_Some in Hp. lia.
           ++ right. right. done.
        -- apply open_missing in Ho as [-> Hnone]. intros [= <- <-]. simpl.
           split; [lia|]. split.
           { intros _. by apply lookup_lt_Some in Hp. }
           right. left. split; [done|]. split; [done|]. right. left.
           by exists p.
      * intros [= <- <-]. simpl. apply lookup_ge_None in Hp.
        split; [lia|]. split; [lia|].
        right. left. split; [done|]. split; [done|]. right. right.
        split; [done|]. lia.
  - destruct (OneBillionWord.numberize self (String c l)) as [s|e] eqn:Hs.
    + intros H. apply IH in H. simpl in H.
      destruct H as (Hle & Hlt' & Hr).
      split; [done|]. split; [done|].
      destruct r as [batch|e]; [done|].
      destruct Hr as [(_ & [=] & _)|[(_ & Hc & Hr)|(_ & Hc & Hr)]].
      * right. left. split; [done|]. split; [done|].
        destruct Hr as [(_ & Hnil & _)|[?|?]];
          [by destruct data | right; by left | right; by right].
      * right. right. done.
    + intros [= <- <-]. simpl. split; [done|]. split; [done|].
      right. right. split; [done|]. split; [done|].
      by apply (OneBillionWord_numberize_key_error _ _ _ Hs).
Qed.



(** X13. What [OneBillionWord.get_data] keeps of a state, whatever the
    state, the disk and the outcome: [current_index] never goes down; an
    index inside the list of partitions stays inside it, and then no
    [IndexError] is raised; and a batch that comes with a file that the
    call has closed is not empty, is shorter than what was asked for, and
    comes from the end of the last partition. *)
Theorem OneBillionWord_get_data_keeps_state_valid
    (data_path : string) (fs : gmap string string) (self : OneBillionWord.t)
    (st st' : OneBillionWord.state) (request : Z)
    (r : result (list (list Z))) :
  let len := length (OneBillionWord.which_partitions self) in
  OneBillionWord.get_data data_path fs self st request = Some (r, st') ->
  (OneBillionWord.current_index st <= OneBillionWord.current_index st')%nat
  /\ ((OneBillionWord.current_index st < len)%nat ->
      (OneBillionWord.current_index st' < len)%nat
      /\ r <> Raise IndexError)
  /\ (forall batch,
        r = Ok batch ->
        closed (OneBillionWord.file st) = false ->
        closed (OneBillionWord.file st') = true ->
        batch <> [] /\ Z.of_nat (length batch) < request
        /\ S (OneBillionWord.current_index st') = len).
Proof.
  intros len Hg.
  apply OneBillionWord_collect_outcome in Hg as (Hle & Hlt & Hr).
  split; [done|]. split.
  - intros Hi. split; [by apply Hlt|]. intros ->.
    destruct Hr as [([=] & _)|[(_ & _ & Hr)|(_ & _ & k & [=] & _)]].
    destruct Hr as [([=] & _)|[(p & [=] & _)|(_ & ?)]]. fold len in Hi. lia.
  - intros batch -> Ho Hc. by apply Hr.
Qed.

Lemma OneBillionWord_get_data_keeps_state_valid_witness :
  [[0; 3; 2; 1]] <> []
  /\ Z.of_nat (length [[0; 3; 2; 1]]) < 2
  /\ S (OneBillionWord.current_index OnePartition.drained)
     = length (OneBillionWord.which_partitions OnePartition.reader).
Proof.
  destruct (OneBillionWord_get_data_keeps_state_valid OnePartition.data_path
              OnePartition.fs OnePartition.reader OnePartition.opened
              OnePartition.drained 2 (Ok [[0; 3; 2; 1]]))
    as (_ & _ & H).
  - vm_compute. reflexivity.
  - apply (H [[0; 3; 2; 1]]); reflexivity.
Defined.

(** ** The names of the partition files *)

Section Numerals.

Lemma string_app_nil (t : string) : (EmptyString ++ t)%string = t.
Proof. reflexivity. Qed.

Lemma string_app_cons (c : ascii) (s t : string) :
  (String c s ++ t)%string = String c (s ++ t).
Proof. reflexivity. Qed.

Lemma string_length_app (s t : string) :
  String.length (s ++ t) = (String.length s + String.length t)%nat.
Proof.
  induction s as [|c s IH]; [done|].
  rewrite string_app_cons. simpl. by rewrite IH.
Qed.

Lemma string_app_assoc (s t u : string) :
  ((s ++ t) ++ u = s ++ (t ++ u))%string.
Proof.
  induction s as [|c s IH]; [done|].
  rewrite !string_app_cons. by f_equal.
Qed.

Lemma string_app_inv_tail (s1 s2 t : string) :
  (s1 ++ t = s2 ++ t)%string -> s1 = s2.
Proof.
  revert s2. induction s1 as [|c s1 IH]; intros [|c' s2];
    rewrite ?string_app_cons, ?string_app_nil; intros H.
  - done.
  - apply (f_equal String.length) in H. simpl in H.
    rewrite string_length_app in H. lia.
  - apply (f_equal String.length) in H. simpl in H.
    rewrite string_length_app in H. lia.
  - injection H as -> H. f_equal. by apply IH.
Qed.

Lemma string_app_inv_head (s t1 t2 : string) :
  (s ++ t1 = s ++ t2)%string -> t1 = t2.
Proof.
  induction s as [|c s IH]; [done|].
  rewrite !string_app_cons. intros [= H]. by apply IH.
Qed.

Lemma zeros_length (k : nat) :
  String.length (string_of_list_ascii (repeat "0"%char k)) = k.
Proof. induction k as [|k IH]; simpl; [done | by rewrite IH]. Qed.

(** Zeros in front of a numeral change neither that it is one nor its
    value. *)
Lemma uint_of_zeros (k : nat) (s : string) :
  NilEmpty.uint_of_string
    (string_of_list_ascii (repeat "0"%char k) ++ s)
  = option_map (Nat.iter k Decimal.D0) (NilEmpty.uint_of_string s).
Proof.
  induction k as [|k IH].
  - simpl. rewrite string_app_nil. by destruct (NilEmpty.uint_of_string s).
  - simpl repeat. simpl string_of_list_ascii. rewrite string_app_cons.
    simpl. rewrite IH. by destruct (NilEmpty.uint_of_string s).
Qed.

Lemma of_uint_zeros (k : nat) (d : Decimal.uint) :
  Pos.of_uint (Nat.iter k Decimal.D0 d) = Pos.of_uint d.
Proof. induction k as [|k IH]; simpl; [done | by rewrite IH]. Qed.

Lemma to_uint_nonnil (n : N) : N.to_uint n <> Decimal.Nil.
Proof.
  destruct n as [|p]; simpl; [done|].
  apply DecimalPos.Unsigned.to_uint_nonnil.
Qed.

Lemma digits_numeral (n : N) :
  OneBillionWord.digits n = NilEmpty.string_of_uint (N.to_uint n)
  /\ exists c s, OneBillionWord.digits n = String c s
                 /\ Ascii.eqb c "-" = false.
Proof.
  unfold OneBillionWord.digits, NilZero.string_of_uint.
  pose proof (to_uint_nonnil n) as Hn.
  destruct (N.to_uint n); try done; split; try done; by eexists _, _.
Qed.

(** A filled numeral reads as the number. *)
Lemma zfill_digits_numeral (width : nat) (n : N) :
  (exists c s, OneBillionWord.zfill width (OneBillionWord.digits n)
               = String c s /\ Ascii.eqb c "-" = false)
  /\ option_map Pos.of_uint
       (NilEmpty.uint_of_string
          (OneBillionWord.zfill width (OneBillionWord.digits n)))
     = Some n.
Proof.
  destruct (digits_numeral n) as (Hd & c & s & Hcs & Hc).
  unfold OneBillionWord.zfill. split.
  - destruct (width - String.length (OneBillionWord.digits n))%nat as [|k];
      simpl.
    + rewrite string_app_nil. by exists c, s.
    + rewrite string_app_cons. by eexists _, _.
  - rewrite uint_of_zeros, Hd, NilEmpty.usu. simpl.
    rewrite of_uint_zeros. f_equal. apply DecimalN.Unsigned.of_to.
Qed.

Lemma digits_within_spec (width count : nat) (n m : N) :
  digits_within width count n = true ->
  (n <= m < n + N.of_nat count)%N ->
  (String.length (OneBillionWord.digits m) <= width)%nat.
Proof.
  revert n. induction count as [|count IH]; intros n; simpl; [lia|].
  intros [Hn Hrest]%andb_prop Hm.
  destruct (decide (m = n)) as [->|Hne].
  - by apply Nat.leb_le.
  - apply (IH (N.succ n)); [done | lia].
Qed.

Lemma five_digits (m : N) :
  (m < 100000)%N -> (String.length (OneBillionWord.digits m) <= 5)%nat.
Proof.
  intros Hm. apply (digits_within_spec 5 (N.to_nat 100000) 0).
  - vm_compute. reflexivity.
  - rewrite N2Nat.id. lia.
Qed.

Lemma four_digits (m : N) :
  (m < 10000)%N -> (String.length (OneBillionWord.digits m) <= 4)%nat.
Proof.
  intros Hm. apply (digits_within_spec 4 (N.to_nat 10000) 0).
  - vm_compute. reflexivity.
  - rewrite N2Nat.id. lia.
Qed.

End Numerals.

(** The numeral of a number reads as the number. *)
Lemma int_of_numeral_format (n : Z) :
  int_of_numeral (OneBillionWord.format_05d n) = Some n.
Proof.
  unfold int_of_numeral, OneBillionWord.format_05d.
  destruct (Z.ltb_spec n 0) as [Hneg|Hpos].
  - destruct (zfill_digits_numeral 4 (Z.to_N (- n)))
      as ((c & s & Hcs & Hc) & Hv).
    rewrite string_app_cons, string_app_nil.
    unfold NilZero.int_of_string.
    change (Ascii.eqb "-" "-") with true. cbv iota.
    unfold NilZero.uint_of_string. rewrite Hcs, <- Hcs.
    destruct (NilEmpty.uint_of_string _) as [d|]; [|done].
    simpl in *. injection Hv as Hv. unfold Z.of_uint. rewrite Hv.
    f_equal. lia.
  - destruct (zfill_digits_numeral 5 (Z.to_N n))
      as ((c & s & Hcs & Hc) & Hv).
    unfold NilZero.int_of_string. rewrite Hcs, Hc, <- Hcs.
    unfold NilZero.uint_of_string. rewrite Hcs, <- Hcs.
    destruct (NilEmpty.uint_of_string _) as [d|]; [|done].
    simpl in *. injection Hv as Hv. unfold Z.of_uint. rewrite Hv.
    f_equal. lia.
Qed.

(** X14. ['{:05d}'.format(n)] can be read back: the numeral that
    [_open_file] writes into a file name stands for the partition number
    it was given, whatever the number.  It is never shorter than five
    characters, and exactly five characters long for every number from
    -9999 to 99999, so for every valid partition. *)
Theorem format_05d_reads_back :
  (forall n, int_of_numeral (OneBillionWord.format_05d n) = Some n)
  /\ (forall n, (5 <= String.length (OneBillionWord.format_05d n))%nat)
  /\ (forall n,
        -9999 <= n <= 99999 ->
        String.length (OneBillionWord.format_05d n) = 5%nat).
Proof.
  split; [apply int_of_numeral_format|split].
  - intros n. unfold OneBillionWord.format_05d, OneBillionWord.zfill.
    destruct (n <? 0); rewrite ?string_app_cons, ?string_app_nil; simpl;
      rewrite string_length_app, zeros_length; lia.
  - intros n Hn. unfold OneBillionWord.format_05d, OneBillionWord.zfill.
    destruct (Z.ltb_spec n 0) as [Hneg|Hpos];
      rewrite ?string_app_cons, ?string_app_nil; simpl;
      rewrite string_length_app, zeros_length.
    + pose proof (four_digits (Z.to_N (- n)) ltac:(lia)). lia.
    + pose proof (five_digits (Z.to_N n) ltac:(lia)). lia.
Qed.

Lemma format_05d_reads_back_witness :
  String.length (OneBillionWord.format_05d 99) = 5%nat
  /\ String.length (OneBillionWord.format_05d (-7)) = 5%nat.
Proof.
  split; apply (proj2 (proj2 format_05d_reads_back)); lia.
Defined.

Section PartitionPaths.

Lemma list_ascii_of_string_app (s t : string) :
  list_ascii_of_string (s ++ t)
  = list_ascii_of_string s ++ list_ascii_of_string t.
Proof.
  induction s as [|c s IH]; [done|].
  rewrite string_app_cons. simpl. by rewrite IH.
Qed.

(** What [os.path.join] does with a component that neither is empty nor
    starts with a slash, after a path that ends with the letter [d]. *)
Lemma join2_after_d (s b : string) :
  OneBillionWord.starts_with_sep b = false ->
  OneBillionWord.join2 (s ++ "d") b = (s ++ "d/" ++ b)%string.
Proof.
  intros Hb. unfold OneBillionWord.join2. rewrite Hb.
  assert (OneBillionWord.ends_with_sep (s ++ "d") = false) as ->.
  { unfold OneBillionWord.ends_with_sep.
    rewrite list_ascii_of_string_app, rev_app_distr. done. }
  assert ((String.length (s ++ "d") =? 0)%nat = false) as ->.
  { rewrite string_length_app. simpl. apply Nat.eqb_neq. lia. }
  simpl. by rewrite string_app_assoc.
Qed.

(** The path of a partition: the data directory, with a slash after it
    unless it is empty or ends with one, then the fixed directories and
    the file name of the set with the number in it. *)
Lemma partition_path_shape (data_path : string) (self : OneBillionWord.t)
    (partition : Z) :
  OneBillionWord.partition_path data_path self partition
  = ((if (String.length data_path =? 0)%nat
          || OneBillionWord.ends_with_sep data_path
      then data_path else data_path ++ "/")
     ++ "1-billion-word/"
     ++ (if String.eqb (OneBillionWord.which_set self) "training"
         then "training-monolingual.tokenized.shuffled/news.en-"
              ++ OneBillionWord.format_05d partition ++ "-of-00100"
         else "heldout-monolingual.tokenized.shuffled/news.en.heldout-"
              ++ OneBillionWord.format_05d partition ++ "-of-00050"))%string.
Proof.
  unfold OneBillionWord.partition_path, OneBillionWord.path_join.
  set (dir := if (String.length data_path =? 0)%nat
                 || OneBillionWord.ends_with_sep data_path
              then data_path else (data_path ++ "/")%string).
  assert (OneBillionWord.join2 data_path "1-billion-word"
          = ((dir ++ "1-billion-wor") ++ "d")%string) as Hroot.
  { unfold OneBillionWord.join2, dir. simpl OneBillionWord.starts_with_sep.
    cbv iota.
    destruct ((String.length data_path =? 0)%nat
              || OneBillionWord.ends_with_sep data_path);
      by rewrite !string_app_assoc. }
  destruct (String.eqb (OneBillionWord.which_set self) "training");
    cbn [fold_left]; rewrite Hroot.
  - rewrite join2_after_d by done.
    change "training-monolingual.tokenized.shuffled"%string
      with ("training-monolingual.tokenized.shuffle" ++ "d")%string.
    rewrite <- !string_app_assoc.
    rewrite join2_after_d by done.
    by rewrite !string_app_assoc.
  - rewrite join2_after_d by done.
    change "heldout-monolingual.tokenized.shuffled"%string
      with ("heldout-monolingual.tokenized.shuffle" ++ "d")%string.
    rewrite <- !string_app_assoc.
    rewrite join2_after_d by done.
    by rewrite !string_app_assoc.
Qed.

End PartitionPaths.

(** X15. No two partitions share a file.  Under one data directory, the
    paths that [_open_file] builds for two readers and two partition
    numbers are equal only if the numbers are equal and the readers are
    both of the training set or both of the other one. *)
Theorem partition_path_injective
    (data_path : string) (self1 self2 : OneBillionWord.t) (n1 n2 : Z) :
  OneBillionWord.partition_path data_path self1 n1
  = OneBillionWord.partition_path data_path self2 n2 ->
  n1 = n2
  /\ (OneBillionWord.which_set self1 = "training"%string
      <-> OneBillionWord.which_set self2 = "training"%string).
Proof.
  rewrite !partition_path_shape.
  intros H%string_app_inv_head%string_app_inv_head.
  assert (forall a b, int_of_numeral (OneBillionWord.format_05d a)
                      = int_of_numeral (OneBillionWord.format_05d b) -> a = b)
    as Hinj.
  { intros a b. rewrite !int_of_numeral_format. by intros [= ->]. }
  destruct (String.eqb_spec (OneBillionWord.which_set self1) "training")
    as [H1|H1];
    destruct (String.eqb_spec (OneBillionWord.which_set self2) "training")
      as [H2|H2]; try discriminate H.
  - apply string_app_inv_head, string_app_inv_tail in H.
    split; [|done]. apply Hinj. by rewrite H.
  - apply string_app_inv_head, string_app_inv_tail in H.
    split; [|done]. apply Hinj. by rewrite H.
Qed.

Lemma partition_path_injective_witness :
  1 = 1
  /\ (OneBillionWord.which_set OnePartition.reader = "training"%string
      <-> OneBillionWord.which_set
            (OneBillionWord.Build "training" [] ∅ (Some lower))
          = "training"%string).
Proof.
  apply (partition_path_injective "/data" OnePartition.reader
           (OneBillionWord.Build "training" [] ∅ (Some lower)) 1 1).
  vm_compute. reflexivity.
Defined.

(** ** [open] *)

(** X16. What [open] does, for both readers.  Without a file, or
    without a partition, it raises [IndexError]; when the first file is
    not on the disk it raises [IOError] for its path; otherwise it
    returns a state with index 0 and the first file open at its start,
    and, when the other files are on the disk too, with every line of
    the corpus pending. *)
Theorem open_outcomes :
  (forall self fs,
     match TextFile.files self with
     | [] => TextFile.open self fs = Raise IndexError
     | p :: _ =>
         match fs !! p with
         | None => TextFile.open self fs = Raise (IOError p)
         | Some text =>
             TextFile.open self fs = Ok (TextFile.State 0 (File text false))
             /\ (Forall (fun p => is_Some (fs !! p)) (TextFile.files self) ->
                 TextFile.pending self fs
                   (TextFile.State 0 (File text false))
                 = TextFile.corpus self fs)
         end
     end)
  /\ (forall data_path fs self,
        match OneBillionWord.which_partitions self with
        | [] => OneBillionWord.open data_path fs self = Raise IndexError
        | n :: _ =>
            let p := OneBillionWord.partition_path data_path self n in
            match fs !! p with
            | None => OneBillionWord.open data_path fs self = Raise (IOError p)
            | Some text =>
                OneBillionWord.open data_path fs self
                = Ok (OneBillionWord.State 0 (File text false))
                /\ (Forall (fun n =>
                              is_Some
                                (fs !! OneBillionWord.partition_path
                                         data_path self n))
                      (OneBillionWord.which_partitions self) ->
                    OneBillionWord.pending data_path fs self
                      (OneBillionWord.State 0 (File text false))
                    = OneBillionWord.corpus data_path fs self)
            end
        end).
Proof.
  split.
  - intros self fs. unfold TextFile.open, TextFile._open_file, Py.open.
    destruct (TextFile.files self) as [|p ps] eqn:Hf; simpl; [done|].
    destruct (fs !! p) as [text|] eqn:Hp; simpl; [|done].
    split; [done|]. intros Hex.
    apply (TextFile_open_spec self fs); [by rewrite Hf|].
    unfold TextFile.open, TextFile._open_file, Py.open.
    by rewrite Hf; simpl; rewrite Hp.
  - intros data_path fs self.
    unfold OneBillionWord.open, OneBillionWord._open_file, Py.open.
    destruct (OneBillionWord.which_partitions self) as [|n ns] eqn:Hf; simpl;
      [done|].
    destruct (fs !! _) as [text|] eqn:Hp; simpl; [|done].
    split; [done|]. intros Hex.
    apply (OneBillionWord_open_spec data_path fs self); [by rewrite Hf|].
    unfold OneBillionWord.open, OneBillionWord._open_file, Py.open.
    by rewrite Hf; simpl; rewrite Hp.
Qed.

(** ** The save extensions, again *)



(** X18. The constructors of the two save extensions make
    [after_training] true by default and no more: the keyword arguments
    that go on to [SimpleExtension.__init__] always hold
    [after_training]; they are the caller's own when the caller gave
    [after_training], be it [False]; otherwise they are the caller's
    with [after_training=True] added; and every other keyword goes on
    as it came. *)
Theorem save_extensions_default_after_training :
  (forall path kwargs,
     let ext := SaveLoadInit.SerializeMainLoop_init path kwargs in
     SaveLoadInit.path ext = path
     /\ is_Some (SaveLoadInit.super_kwargs ext !! "after_training"%string)
     /\ (is_Some (kwargs !! "after_training"%string) ->
         SaveLoadInit.super_kwargs ext = kwargs)
     /\ (kwargs !! "after_training"%string = None ->
         SaveLoadInit.super_kwargs ext !! "after_training"%string
         = Some (SaveLoadInit.KBool true))
     /\ (forall k, k <> "after_training"%string ->
           SaveLoadInit.super_kwargs ext !! k = kwargs !! k))
  /\ (forall (Manager : Type) (MainLoopStateManager : string -> Manager)
             state_path kwargs,
        let ext :=
          SaveLoadInit.SaveTrainingState_init MainLoopStateManager state_path
            kwargs in
        SaveLoadInit.state_manager ext = MainLoopStateManager state_path
        /\ is_Some
             (SaveLoadInit.state_super_kwargs ext !! "after_training"%string)
        /\ (is_Some (kwargs !! "after_training"%string) ->
            SaveLoadInit.state_super_kwargs ext = kwargs)
        /\ (kwargs !! "after_training"%string = None ->
            SaveLoadInit.state_super_kwargs ext !! "after_training"%string
            = Some (SaveLoadInit.KBool true))
        /\ (forall k, k <> "after_training"%string ->
              SaveLoadInit.state_super_kwargs ext !! k = kwargs !! k)).
Proof.
  assert (forall kwargs : gmap string SaveLoadInit.kwvalue,
            let kw := SaveLoadInit.setdefault kwargs "after_training"
                        (SaveLoadInit.KBool true) in
            is_Some (kw !! "after_training"%string)
            /\ (is_Some (kwargs !! "after_training"%string) -> kw = kwargs)
            /\ (kwargs !! "after_training"%string = None ->
                kw !! "after_training"%string
                = Some (SaveLoadInit.KBool true))
            /\ (forall k, k <> "after_training"%string ->
                  kw !! k = kwargs !! k)) as H.
  { intros kwargs. unfold SaveLoadInit.setdefault. simpl.
    destruct (kwargs !! "after_training"%string) as [v|] eqn:Hk.
    - split; [by rewrite Hk|]. split; [done|]. split; [done|]. done.
    - split; [by rewrite lookup_insert_eq|]. split; [by intros [? [=]]|].
      split; [intros _; by rewrite lookup_insert_eq|].
      intros k Hne. by rewrite lookup_insert_ne. }
  split.
  - intros path kwargs. simpl. split; [done|]. apply H.
  - intros Manager MainLoopStateManager state_path kwargs. simpl.
    split; [done|]. apply H.
Qed.

Lemma save_extensions_default_after_training_witness :
  SaveLoadInit.super_kwargs
    (SaveLoadInit.SerializeMainLoop_init "main_loop.pkl"
       {[ "after_training"%string := SaveLoadInit.KBool false ]})
  = {[ "after_training"%string := SaveLoadInit.KBool false ]}.
Proof.
  apply (proj1 save_extensions_default_after_training "main_loop.pkl"
           {[ "after_training"%string := SaveLoadInit.KBool false ]}).
  eexists. vm_compute. reflexivity.
Defined.
